(** * Deployments: credential cache, bootstrap gate, rollback orchestrator
      and asset publisher cache of [packages/aws-cdk/lib/api/deployments.ts]

    The TypeScript façade [Deployments] is embedded as explicit
    state-passing code in a small state-and-exception monad.  The state
    holds the two instance caches ([sdkCache], [publisherCache]), an
    allocation counter that stands for JavaScript object identity, and the
    history of every call made to an external collaborator.  What the
    collaborators answer is given by a [World]: a record of functions from
    the history so far to the answer, so that any deterministic behaviour
    of the control plane can be expressed.

    An operation written in the monad runs from its first line to its
    return or throw with nothing in between: it stands for a call that no
    other call on the same instance overlaps with.  The one place where
    the instance state is read before an [await] and written after it is
    [cachedSdkForEnvironment]; it is given in two halves, before and after
    the [await], so that calls in flight at the same time can be put
    together as well. *)

From Stdlib Require Import ZArith Lia Ascii.
From stdpp Require Import base strings gmap list pretty.

Local Open Scope Z_scope.
Local Open Scope string_scope.

(** ** JavaScript values *)

(** A call either returns a value or throws an [Error] with a message. *)
Inductive Result (A : Type) : Type :=
| Returns (a : A)
| Throws (message : string).
Arguments Returns {A} a.
Arguments Throws {A} message.

(** Truthiness of [string | undefined], [number | undefined] and
    [boolean | undefined]. *)
Definition truthy_string (s : option string) : bool :=
  match s with
  | Some (String _ _) => true
  | _ => false
  end.

Definition truthy_number (n : option Z) : bool :=
  match n with
  | Some v => negb (v =? 0)%Z
  | None => false
  end.

Definition truthy_boolean (b : option bool) : bool :=
  match b with
  | Some true => true
  | _ => false
  end.

(** [o ?? d] *)
Definition nullish {A : Type} (o : option A) (d : A) : A :=
  match o with
  | Some a => a
  | None => d
  end.

(** [Array.prototype.join] *)
Fixpoint join (sep : string) (l : list string) : string :=
  match l with
  | [] => ""
  | [x] => x
  | x :: rest => x +:+ sep +:+ join sep rest
  end.

(** [String.prototype.includes] *)
Fixpoint includes (needle s : string) : bool :=
  String.prefix needle s ||
  match s with
  | EmptyString => false
  | String _ rest => includes needle rest
  end.

(** Last character of a string, used to tell error messages apart. *)
Fixpoint last_char (s : string) : option ascii :=
  match s with
  | EmptyString => None
  | String c EmptyString => Some c
  | String _ rest => last_char rest
  end.

(** Template-literal rendering of a number. *)
Definition number_to_string (n : Z) : string := pretty n.

(** ** Data model *)

(** [cxapi.Environment] *)
Record Environment := {
  env_name : string;
  account : string;
  region : string;
}.

(** The enum [Mode] is declared in [aws-auth/credentials]. *)
Inductive Mode := ForReading | ForWriting.

(** Modelled from the spec: the declaration of the enum [Mode] is outside
    the source at hand; the data model lists its members as
    [{ForReading, ForWriting}] in that order, and a TypeScript enum renders
    its members in a template literal by their ordinal. *)
Definition Mode_to_string (m : Mode) : string :=
  match m with
  | ForReading => "0"
  | ForWriting => "1"
  end.

(** The payload of [assumeRoleAdditionalOptions] is an arbitrary object; it
    is kept as a list of properties and only ever handed to
    [JSON.stringify]. *)
Definition AdditionalOptions : Type := list (string * string).

(** [CredentialsOptions] *)
Record CredentialsOptions := {
  assumeRoleArn : option string;
  assumeRoleExternalId : option string;
  assumeRoleAdditionalOptions : option AdditionalOptions;
}.

(** Object identity of an SDK client. *)
Definition ISDK : Type := nat.

(** [SdkForEnvironment] *)
Record SdkForEnvironment := {
  sdk : ISDK;
  didAssumeRole : bool;
}.

(** [EnvironmentResources]: the accessor the registry hands out for an
    environment and a client. *)
Record EnvironmentResources := {
  er_environment : Environment;
  er_sdk : ISDK;
}.

(** [stack.lookupRole] (a [BootstrapRole]) *)
Record BootstrapRole := {
  arn : string;
  lr_assumeRoleExternalId : option string;
  lr_assumeRoleAdditionalOptions : option AdditionalOptions;
  lr_requiresBootstrapStackVersion : option Z;
  lr_bootstrapStackVersionSsmParameter : option string;
}.

(** [cxapi.CloudFormationStackArtifact], the fields the façade reads. *)
Record CloudFormationStackArtifact := {
  stackName : string;
  displayName : string;
  environment : option Environment;
  stack_assumeRoleArn : option string;
  stack_assumeRoleExternalId : option string;
  stack_assumeRoleAdditionalOptions : option AdditionalOptions;
  cloudFormationExecutionRoleArn : option string;
  requiresBootstrapStackVersion : option Z;
  bootstrapStackVersionSsmParameter : option string;
  lookupRole : option BootstrapRole;
}.

(** [RollbackChoice]; [UNEXPECTED] stands for any value outside the four
    members, which the [default:] branch of the switch receives. *)
Inductive RollbackChoice :=
| NONE
| START_ROLLBACK
| CONTINUE_UPDATE_ROLLBACK
| ROLLBACK_FAILED
| UNEXPECTED (rendering : string).

Definition is_continue_update_rollback (c : RollbackChoice) : bool :=
  match c with
  | CONTINUE_UPDATE_ROLLBACK => true
  | _ => false
  end.

(** [StackStatus] as the orchestrator observes it. *)
Record StackStatus := {
  status_toString : string;
  rollbackChoice : RollbackChoice;
  isRollbackSuccess : bool;
}.

(** [CloudFormationStack] *)
Record CloudFormationStack := {
  exists_ : bool;
  stackStatus : StackStatus;
}.

(** A resource event of the [StackEventPoller]. *)
Record ResourceEvent := {
  LogicalResourceId : option string;
  parentStackLogicalIds : list string;
  isStackEvent : bool;
}.

(** Input of [cfn.rollbackStack]. *)
Record RollbackStackInput := {
  rb_StackName : string;
  rb_RoleARN : option string;
  rb_ClientRequestToken : string;
  rb_RetainExceptOnCreate : bool;
}.

(** Input of [cfn.continueUpdateRollback]. *)
Record ContinueUpdateRollbackInput := {
  cur_StackName : string;
  cur_ClientRequestToken : string;
  cur_RoleARN : option string;
  cur_ResourcesToSkip : list string;
}.

(** [DeploymentMethod], reduced to what [deployStack] builds itself. *)
Record DeploymentMethod := {
  method : string;
  dm_changeSetName : option string;
  dm_execute : option bool;
}.

(** [DeployStackOptions]: the fields [Deployments.deployStack] inspects;
    the remaining ones are passed through untouched. *)
Record DeployStackOptions := {
  ds_stack : CloudFormationStackArtifact;
  ds_roleArn : option string;
  ds_deploymentMethod : option DeploymentMethod;
  ds_changeSetName : option string;
  ds_execute : option bool;
}.

(** What the façade hands to the external [deployStack]. *)
Record DeployStackArgs := {
  da_stack : CloudFormationStackArtifact;
  da_resolvedEnvironment : Environment;
  da_sdk : ISDK;
  da_roleArn : option string;
  da_envResources : EnvironmentResources;
  da_deploymentMethod : option DeploymentMethod;
}.

(** [DeployStackResult] is opaque to the façade. *)
Definition DeployStackResult : Type := string.

(** [RollbackStackOptions] *)
Record RollbackStackOptions := {
  rs_stack : CloudFormationStackArtifact;
  rs_roleArn : option string;
  rs_quiet : option bool;
  rs_ci : option bool;
  rs_force : option bool;
  rs_orphanLogicalIds : option (list string);
  rs_validateBootstrapStackVersion : option bool;
}.

(** [RollbackStackResult] *)
Record RollbackStackResult := {
  notInRollbackableState : option bool;
  success : option bool;
}.

(** Object identity of an [AssetManifest] and of an [AssetPublishing]. *)
Definition AssetManifest : Type := nat.
Definition AssetPublishing : Type := nat.

(** [IManifestEntry] *)
Record IManifestEntry := {
  asset_id : string;
}.

(** [cxapi.AssetManifestArtifact] *)
Record AssetManifestArtifact := {
  asset_requiresBootstrapStackVersion : option Z;
  asset_bootstrapStackVersionSsmParameter : option string;
}.

(** [BuildStackAssetsOptions] and [PublishStackAssetsOptions] *)
Record AssetOptions := {
  ao_stack : CloudFormationStackArtifact;
  ao_roleArn : option string;
  ao_stackName : option string;
}.

(** [DeploymentsProps] *)
Record DeploymentsProps := {
  props_quiet : option bool;
}.

(** [PreparedSdkForEnvironment] *)
Record PreparedSdkForEnvironment := {
  stackSdk : ISDK;
  resolvedEnvironment : Environment;
  cloudFormationRoleArn : option string;
  envResources : EnvironmentResources;
}.

(** [PreparedSdkWithLookupRoleForEnvironment] *)
Record PreparedSdkWithLookupRoleForEnvironment := {
  lk_sdk : ISDK;
  lk_didAssumeRole : bool;
  lk_resolvedEnvironment : Environment;
  lk_envResources : EnvironmentResources;
}.

(** ** History of external calls *)

Inductive LogLevel := Debug | Warning | Error.

Inductive PublisherOp := BuildEntry | PublishEntry | IsEntryPublished.

Inductive Event :=
| EvLog (level : LogLevel) (msg : string)
| EvResolveEnvironment (env : option Environment)
| EvReplaceEnvPlaceholders (env : Environment) (fields : list (option string))
| EvForEnvironment (env : Environment) (mode : Mode)
    (options : option CredentialsOptions)
| EvBootstrapVersion (er : EnvironmentResources) (param : option string)
| EvValidateVersion (er : EnvironmentResources) (expected : option Z)
    (param : option string)
| EvLookup (cfn : ISDK) (name : string)
| EvRollbackStack (cfn : ISDK) (input : RollbackStackInput)
| EvContinueUpdateRollback (cfn : ISDK) (input : ContinueUpdateRollbackInput)
| EvPoll (cfn : ISDK) (name : string) (statuses : list string)
| EvMonitorStart (cfn : ISDK) (name : string) (ci : option bool)
| EvMonitorStop
| EvStabilizeStack (cfn : ISDK) (name : string)
| EvDeployStack (args : DeployStackArgs)
| EvNewPublisher (p : AssetPublishing) (m : AssetManifest) (env : Environment)
    (prefix : string) (quiet : bool)
| EvPublisher (op : PublisherOp) (m : AssetManifest) (p : AssetPublishing)
    (asset : IManifestEntry).

(** The history is kept newest first. *)
Definition History : Type := list Event.

(** The calls that change the remote stack. *)
Definition is_mutating (e : Event) : bool :=
  match e with
  | EvRollbackStack _ _ | EvContinueUpdateRollback _ _ | EvDeployStack _ => true
  | _ => false
  end.

Definition is_lookup (e : Event) : bool :=
  match e with
  | EvLookup _ _ => true
  | _ => false
  end.

Definition is_forEnvironment (e : Event) : bool :=
  match e with
  | EvForEnvironment _ _ _ => true
  | _ => false
  end.

Definition is_validateVersion (e : Event) : bool :=
  match e with
  | EvValidateVersion _ _ _ => true
  | _ => false
  end.

Definition count (p : Event → bool) (h : list Event) : nat :=
  length (filter (λ e, p e = true) h).

(** ** The external collaborators *)

Record World := {
  (** [sdkProvider.resolveEnvironment] *)
  w_resolveEnvironment : History → option Environment → Result Environment;
  (** [replaceEnvPlaceholders], applied to the values of the object *)
  w_replaceEnvPlaceholders :
    History → Environment → option string → Result (option string);
  (** [sdkProvider.forEnvironment]: whether the role was assumed; the client
      object itself is freshly allocated *)
  w_forEnvironment :
    History → Environment → Mode → option CredentialsOptions → Result bool;
  (** [JSON.stringify] *)
  w_JSON_stringify : AdditionalOptions → string;
  (** the version the environment reports at a parameter location *)
  w_bootstrapVersion :
    History → EnvironmentResources → option string → Result Z;
  (** the text of the error raised on a version mismatch:
      required, then found *)
  w_versionMismatchMessage : Z → Z → string;
  (** [CloudFormationStack.lookup] *)
  w_lookup : History → string → Result CloudFormationStack;
  (** [cfn.rollbackStack(...).promise()] *)
  w_rollbackStack : History → RollbackStackInput → Result unit;
  (** [cfn.continueUpdateRollback(...).promise()] *)
  w_continueUpdateRollback :
    History → ContinueUpdateRollbackInput → Result unit;
  (** [poller.poll()] followed by [poller.resourceErrors] *)
  w_poll : History → string → list string → Result (list ResourceEvent);
  (** [randomUUID()] *)
  w_randomUUID : History → string;
  (** [monitor.errors] *)
  w_monitorErrors : History → list string;
  (** [stabilizeStack] *)
  w_stabilizeStack : History → string → Result (option CloudFormationStack);
  (** the external [deployStack] *)
  w_deployStack : History → DeployStackArgs → Result DeployStackResult;
  (** [publisher.buildEntry], [publisher.publishEntry] *)
  w_publisherRun :
    History → PublisherOp → AssetPublishing → IManifestEntry → Result unit;
  (** [publisher.isEntryPublished] *)
  w_isEntryPublished :
    History → AssetPublishing → IManifestEntry → Result bool;
  (** [publisher.hasFailures] *)
  w_hasFailures : History → AssetPublishing → bool;
  (** [chalk.bold] *)
  w_chalk_bold : string → string;
}.

(** ** State of one [Deployments] instance and the monad *)

Record Deployments := {
  props : DeploymentsProps;
  history : History;
  sdkCache : gmap string SdkForEnvironment;
  publisherCache : gmap AssetManifest AssetPublishing;
  nextObject : nat;
}.

(** [new Deployments(props)] *)
Definition new_Deployments (p : DeploymentsProps) : Deployments :=
  {| props := p; history := []; sdkCache := ∅; publisherCache := ∅;
     nextObject := 0 |}.

Definition M (A : Type) : Type := Deployments → Result A * Deployments.

Definition ret {A : Type} (a : A) : M A := λ d, (Returns a, d).

Definition throw {A : Type} (msg : string) : M A := λ d, (Throws msg, d).

Definition bind {A B : Type} (m : M A) (k : A → M B) : M B :=
  λ d, match m d with
       | (Returns a, d') => k a d'
       | (Throws msg, d') => (Throws msg, d')
       end.

(** [try { m } catch (e) { handler e.message }] *)
Definition try_catch {A : Type} (m : M A) (handler : string → M A) : M A :=
  λ d, match m d with
       | (Returns a, d') => (Returns a, d')
       | (Throws msg, d') => handler msg d'
       end.

Notation "'let*' x ':=' m 'in' k" := (bind m (λ x, k))
  (at level 10, x name, m at level 100, k at level 200).
Notation "m ';;' k" := (bind m (λ _, k))
  (at level 100, k at level 200, right associativity).

Definition record (e : Event) (d : Deployments) : Deployments :=
  {| props := props d;
     history := e :: history d;
     sdkCache := sdkCache d;
     publisherCache := publisherCache d;
     nextObject := nextObject d |}.

(** An external call: the collaborator answers from the history before the
    call, and the call is appended to the history. *)
Definition call {A : Type} (e : Event) (answer : History → Result A) : M A :=
  λ d, (answer (history d), record e d).

(** A call that cannot throw. *)
Definition emit (e : Event) : M unit := λ d, (Returns tt, record e d).

Definition debug (msg : string) : M unit := emit (EvLog Debug msg).
Definition warning (msg : string) : M unit := emit (EvLog Warning msg).
Definition error (msg : string) : M unit := emit (EvLog Error msg).

(** Allocation of a fresh object. *)
Definition fresh : M nat :=
  λ d, (Returns (nextObject d),
        {| props := props d;
           history := history d;
           sdkCache := sdkCache d;
           publisherCache := publisherCache d;
           nextObject := S (nextObject d) |}).

(** ** Credential cache *)

(** The key [cacheKeyElements.join(':')] of [cachedSdkForEnvironment]. *)
Definition cacheKey (w : World) (env : Environment) (mode : Mode)
    (options : option CredentialsOptions) : string :=
  let cacheKeyElements :=
    [ account env;
      region env;
      Mode_to_string mode;
      nullish (options ≫= assumeRoleArn) "";
      nullish (options ≫= assumeRoleExternalId) "" ] in
  let cacheKeyElements :=
    match options ≫= assumeRoleAdditionalOptions with
    | Some additional =>
        (cacheKeyElements ++ [w_JSON_stringify w additional])%list
    | None => cacheKeyElements
    end in
  join ":" cacheKeyElements.

(** [this.sdkCache.set(cacheKey, ret)] *)
Definition sdkCache_set (key : string) (v : SdkForEnvironment) : M unit :=
  λ d, (Returns tt,
        {| props := props d;
           history := history d;
           sdkCache := <[key := v]> (sdkCache d);
           publisherCache := publisherCache d;
           nextObject := nextObject d |}).

(** [sdkProvider.forEnvironment]: on success the provider hands out a new
    client object. *)
Definition forEnvironment (w : World) (env : Environment) (mode : Mode)
    (options : option CredentialsOptions) : M SdkForEnvironment :=
  let* assumed := call (EvForEnvironment env mode options)
                       (λ h, w_forEnvironment w h env mode options) in
  let* client := fresh in
  ret {| sdk := client; didAssumeRole := assumed |}.

(** A call of [cachedSdkForEnvironment] as it stands at its [await]: it
    has either found the client in the cache, or called the provider and
    is suspended until the provider settles. *)
Inductive PendingSdk :=
| SdkCached (existing : SdkForEnvironment)
| SdkAwaited (key : string) (settled : Result SdkForEnvironment).

(** The part of [cachedSdkForEnvironment] that runs before the [await]:
    the key, the cache read and, on a miss, the call to the provider. *)
Definition cachedSdkForEnvironment_start (w : World) (env : Environment)
    (mode : Mode) (options : option CredentialsOptions)
    : Deployments → PendingSdk * Deployments :=
  λ d,
    let key := cacheKey w env mode options in
    match sdkCache d !! key with
    | Some existing => (SdkCached existing, d)
    | None =>
        let (settled, d') := forEnvironment w env mode options d in
        (SdkAwaited key settled, d')
    end.

(** The part that runs when the awaited call has settled: the cache write
    and the return, or the rethrow. *)
Definition cachedSdkForEnvironment_resume (pending : PendingSdk)
    : M SdkForEnvironment :=
  match pending with
  | SdkCached existing => ret existing
  | SdkAwaited key (Returns r) => sdkCache_set key r ;; ret r
  | SdkAwaited _ (Throws msg) => throw msg
  end.

(** A call that nothing else interleaves with. *)
Definition cachedSdkForEnvironment (w : World) (env : Environment) (mode : Mode)
    (options : option CredentialsOptions) : M SdkForEnvironment :=
  λ d,
    let (pending, d') := cachedSdkForEnvironment_start w env mode options d in
    cachedSdkForEnvironment_resume pending d'.

(** Two calls that overlap: the second starts while the first is suspended
    at its [await]; then the first resumes, then the second. *)
Definition cachedSdkForEnvironment_overlapping (w : World)
    (env1 : Environment) (mode1 : Mode) (options1 : option CredentialsOptions)
    (env2 : Environment) (mode2 : Mode) (options2 : option CredentialsOptions)
    (d : Deployments)
    : Result SdkForEnvironment * Result SdkForEnvironment * Deployments :=
  let (pending1, d1) :=
    cachedSdkForEnvironment_start w env1 mode1 options1 d in
  let (pending2, d2) :=
    cachedSdkForEnvironment_start w env2 mode2 options2 d1 in
  let (result1, d3) := cachedSdkForEnvironment_resume pending1 d2 in
  let (result2, d4) := cachedSdkForEnvironment_resume pending2 d3 in
  (result1, result2, d4).

(** ** Environment and credential resolution *)

(** [replaceEnvPlaceholders] on an object with one, respectively two,
    fields. *)
Definition replaceEnvPlaceholders1 (w : World) (env : Environment)
    (a : option string) : M (option string) :=
  call (EvReplaceEnvPlaceholders env [a])
       (λ h, w_replaceEnvPlaceholders w h env a).

Definition replaceEnvPlaceholders2 (w : World) (env : Environment)
    (a b : option string) : M (option string * option string) :=
  call (EvReplaceEnvPlaceholders env [a; b])
       (λ h, match w_replaceEnvPlaceholders w h env a with
             | Throws msg => Throws msg
             | Returns a' =>
                 match w_replaceEnvPlaceholders w h env b with
                 | Throws msg => Throws msg
                 | Returns b' => Returns (a', b')
                 end
             end).

(** [this.environmentResources.for(env, sdk)] *)
Definition environmentResources_for (env : Environment) (client : ISDK)
    : EnvironmentResources :=
  {| er_environment := env; er_sdk := client |}.

Definition resolveEnvironment (w : World) (env : option Environment)
    : M Environment :=
  call (EvResolveEnvironment env) (λ h, w_resolveEnvironment w h env).

Definition prepareSdkFor (w : World) (stack : CloudFormationStackArtifact)
    (roleArn : option string) (mode : Mode) : M PreparedSdkForEnvironment :=
  match environment stack with
  | None =>
      throw ("The stack " +:+ displayName stack +:+
             " does not have an environment")
  | Some _ =>
      let* resolved := resolveEnvironment w (environment stack) in
      let* arns := replaceEnvPlaceholders2 w resolved
                     (stack_assumeRoleArn stack)
                     (match roleArn with
                      | Some r => Some r
                      | None => cloudFormationExecutionRoleArn stack
                      end) in
      let* client := cachedSdkForEnvironment w resolved mode
                       (Some {| assumeRoleArn := fst arns;
                                assumeRoleExternalId :=
                                  stack_assumeRoleExternalId stack;
                                assumeRoleAdditionalOptions :=
                                  stack_assumeRoleAdditionalOptions stack |}) in
      ret {| stackSdk := sdk client;
             resolvedEnvironment := resolved;
             cloudFormationRoleArn := snd arns;
             envResources := environmentResources_for resolved (sdk client) |}
  end.

(** ** Bootstrap compatibility gate *)

(** [envResources.versionFromSsmParameter] *)
Definition versionFromSsmParameter (w : World) (er : EnvironmentResources)
    (param : string) : M Z :=
  call (EvBootstrapVersion er (Some param))
       (λ h, w_bootstrapVersion w h er (Some param)).

(** Modelled from the spec: [EnvironmentResources.validateVersion] lives in
    [environment-resources], outside the source at hand.  Following the
    contract of the gate: with no requirement declared it succeeds
    trivially; otherwise it reads the current version value from the given
    metadata location through the accessor and compares, and when the live
    version is strictly less than the required one it fails with a
    version-mismatch error. *)
Definition validateVersion (w : World) (er : EnvironmentResources)
    (expected : option Z) (param : option string) : M unit :=
  emit (EvValidateVersion er expected param) ;;
  match expected with
  | None => ret tt
  | Some required =>
      let* live := call (EvBootstrapVersion er param)
                        (λ h, w_bootstrapVersion w h er param) in
      if (live <? required)%Z
      then throw (w_versionMismatchMessage w required live)
      else ret tt
  end.

Definition validateBootstrapStackVersion (w : World) (name : string)
    (requires : option Z) (param : option string)
    (er : EnvironmentResources) : M unit :=
  try_catch (validateVersion w er requires param)
            (λ message, throw (name +:+ ": " +:+ message)).

(** ** deployStack *)

Definition deployStack (w : World) (options : DeployStackOptions)
    : M DeployStackResult :=
  let* deploymentMethod :=
    if truthy_string (ds_changeSetName options)
       || match ds_execute options with Some _ => true | None => false end
    then
      match ds_deploymentMethod options with
      | Some _ =>
          throw ("You cannot supply both 'deploymentMethod' and " +:+
                 "'changeSetName/execute'. Supply one or the other.")
      | None =>
          ret (Some {| method := "change-set";
                       dm_changeSetName := ds_changeSetName options;
                       dm_execute := ds_execute options |})
      end
    else ret (ds_deploymentMethod options) in
  let* prepared := prepareSdkFor w (ds_stack options) (ds_roleArn options)
                     ForWriting in
  validateBootstrapStackVersion w
    (stackName (ds_stack options))
    (requiresBootstrapStackVersion (ds_stack options))
    (bootstrapStackVersionSsmParameter (ds_stack options))
    (envResources prepared) ;;
  let args := {| da_stack := ds_stack options;
                 da_resolvedEnvironment := resolvedEnvironment prepared;
                 da_sdk := stackSdk prepared;
                 da_roleArn := cloudFormationRoleArn prepared;
                 da_envResources := envResources prepared;
                 da_deploymentMethod := deploymentMethod |} in
  call (EvDeployStack args) (λ h, w_deployStack w h args).

(** ** Rollback orchestrator *)

Definition BOOTSTRAP_STACK_VERSION_FOR_ROLLBACK : Z := 23.

Definition combine_message : string := "Cannot combine --force with --orphan".

Definition disappeared_message : string :=
  "Stack deploy failed (the stack disappeared while we were rolling it back)".

Definition retry_suffix : string :=
  " (fix problem and retry, or orphan these resources using --orphan or --force)".

(** The error thrown at the end of an iteration. *)
Definition iteration_message (stackErrorMessage : string) : string :=
  stackErrorMessage +:+ retry_suffix.

Definition unexpected_choice_message (rendering : string) : string :=
  "Unexpected rollback choice: " +:+ rendering.

(** The error thrown once the loop has run out of iterations. *)
Definition no_progress_message : string :=
  "Rollback did not finish after a large number of iterations; stopping because it looks like we're not making progress anymore. You can retry if rollback was progressing as expected.".

Definition suffixWithErrors (msg : string) (errors : option (list string))
    : string :=
  match errors with
  | Some (e :: es) => msg +:+ ": " +:+ join ", " (e :: es)
  | _ => msg
  end.

(** The filter and map applied to [poller.resourceErrors]. *)
Definition failedResourcesToSkip (resourceErrors : list ResourceEvent)
    : list string :=
  map (λ r, nullish (LogicalResourceId r) "")
      (filter (λ r, negb (isStackEvent r)
                    && (length (parentStackLogicalIds r) =? 0)%nat = true)
              resourceErrors).

Definition rollbackInProgressStatuses : list string :=
  ["ROLLBACK_IN_PROGRESS"; "UPDATE_ROLLBACK_IN_PROGRESS"].

(** How the [switch] on the rollback choice ends: with [break], carrying
    the current value of [resourcesToSkip], or with [return]. *)
Inductive SwitchOutcome :=
| Break (resourcesToSkip : list string)
| ReturnFromSwitch (result : RollbackStackResult).

Definition rollbackSwitch (w : World) (options : RollbackStackOptions)
    (cfn : ISDK) (roleArn : option string) (deployName : string)
    (cloudFormationStack : CloudFormationStack)
    (resourcesToSkip : list string) : M SwitchOutcome :=
  match rollbackChoice (stackStatus cloudFormationStack) with
  | NONE =>
      warning ("Stack " +:+ deployName +:+ " does not need a rollback: " +:+
               status_toString (stackStatus cloudFormationStack)) ;;
      ret (ReturnFromSwitch {| notInRollbackableState := Some true;
                               success := None |})
  | START_ROLLBACK =>
      debug ("Initiating rollback of stack " +:+ deployName) ;;
      let* input := (λ d, (Returns
                       {| rb_StackName := deployName;
                          rb_RoleARN := roleArn;
                          rb_ClientRequestToken := w_randomUUID w (history d);
                          rb_RetainExceptOnCreate := true |}, d)) in
      call (EvRollbackStack cfn input) (λ h, w_rollbackStack w h input) ;;
      ret (Break resourcesToSkip)
  | CONTINUE_UPDATE_ROLLBACK =>
      let* resourcesToSkip :=
        if truthy_boolean (rs_force options)
        then
          let* resourceErrors :=
            call (EvPoll cfn deployName rollbackInProgressStatuses)
                 (λ h, w_poll w h deployName rollbackInProgressStatuses) in
          ret (failedResourcesToSkip resourceErrors)
        else ret resourcesToSkip in
      let skipDescription :=
        if (0 <? length resourcesToSkip)%nat
        then " (orphaning: " +:+ join ", " resourcesToSkip +:+ ")"
        else "" in
      warning ("Continuing rollback of stack " +:+ deployName +:+
               skipDescription) ;;
      let* input := (λ d, (Returns
                       {| cur_StackName := deployName;
                          cur_ClientRequestToken := w_randomUUID w (history d);
                          cur_RoleARN := roleArn;
                          cur_ResourcesToSkip := resourcesToSkip |}, d)) in
      call (EvContinueUpdateRollback cfn input)
           (λ h, w_continueUpdateRollback w h input) ;;
      ret (Break resourcesToSkip)
  | ROLLBACK_FAILED =>
      warning ("Stack " +:+ deployName +:+
               " failed creation and rollback. This state cannot be rolled back. You can recreate this stack by running 'cdk deploy'.") ;;
      ret (ReturnFromSwitch {| notInRollbackableState := Some true;
                               success := None |})
  | UNEXPECTED rendering => throw (unexpected_choice_message rendering)
  end.

(** [monitor?.errors]: [undefined] in quiet mode. *)
Definition monitor_errors (w : World) (options : RollbackStackOptions)
    : M (option (list string)) :=
  λ d, (Returns (if truthy_boolean (rs_quiet options)
                 then None
                 else Some (w_monitorErrors w (history d))), d).

(** The monitored wait, from the start of the monitor to the end of the
    [finally] block: it yields [stackErrorMessage] and [finalStackState]. *)
Definition monitoredWait (w : World) (options : RollbackStackOptions)
    (cfn : ISDK) (deployName : string)
    (cloudFormationStack : CloudFormationStack)
    : M (option string * CloudFormationStack) :=
  (if truthy_boolean (rs_quiet options)
   then ret tt
   else emit (EvMonitorStart cfn deployName (rs_ci options))) ;;
  let* waited :=
    try_catch
      (let* successStack :=
         call (EvStabilizeStack cfn deployName)
              (λ h, w_stabilizeStack w h deployName) in
       match successStack with
       | None => throw disappeared_message
       | Some final =>
           let* errors := monitor_errors w options in
           let joined := option_map (join ", ") errors in
           ret (if truthy_string joined then joined else None, final)
       end)
      (λ message,
         let* errors := monitor_errors w options in
         ret (Some (suffixWithErrors message errors), cloudFormationStack)) in
  (if truthy_boolean (rs_quiet options) then ret tt else emit EvMonitorStop) ;;
  ret waited.

(** How one pass through the loop body ends. *)
Inductive IterationOutcome :=
| Continue (resourcesToSkip : list string)
| Return (result : RollbackStackResult).

(** Lines 601 to 611: what to do with the outcome of the wait. *)
Definition afterWait (options : RollbackStackOptions)
    (resourcesToSkip : list string)
    (waited : option string * CloudFormationStack) : M IterationOutcome :=
  let stackErrorMessage := fst waited in
  let finalStackState := snd waited in
  if isRollbackSuccess (stackStatus finalStackState)
     || negb (truthy_string stackErrorMessage)
  then ret (Return {| notInRollbackableState := None; success := Some true |})
  else if is_continue_update_rollback
            (rollbackChoice (stackStatus finalStackState))
          && truthy_boolean (rs_force options)
  then ret (Continue resourcesToSkip)
  else throw (iteration_message (nullish stackErrorMessage "")).

(** The body of the [while] loop. *)
Definition rollbackIteration (w : World) (options : RollbackStackOptions)
    (cfn : ISDK) (roleArn : option string) (deployName : string)
    (resourcesToSkip : list string) : M IterationOutcome :=
  let* cloudFormationStack :=
    call (EvLookup cfn deployName) (λ h, w_lookup w h deployName) in
  let* switched := rollbackSwitch w options cfn roleArn deployName
                     cloudFormationStack resourcesToSkip in
  match switched with
  | ReturnFromSwitch result => ret (Return result)
  | Break resourcesToSkip =>
      let* waited := monitoredWait w options cfn deployName
                       cloudFormationStack in
      afterWait options resourcesToSkip waited
  end.

(** [let maxLoops = 10; while (maxLoops--) { ... } throw ...] *)
Fixpoint rollbackLoop (w : World) (options : RollbackStackOptions)
    (cfn : ISDK) (roleArn : option string) (deployName : string)
    (maxLoops : nat) (resourcesToSkip : list string)
    : M RollbackStackResult :=
  match maxLoops with
  | O => throw no_progress_message
  | S maxLoops =>
      let* outcome := rollbackIteration w options cfn roleArn deployName
                        resourcesToSkip in
      match outcome with
      | Return result => ret result
      | Continue resourcesToSkip =>
          rollbackLoop w options cfn roleArn deployName maxLoops
                       resourcesToSkip
      end
  end.

(** The part of [rollbackStack] that follows the force/orphan check and
    precedes the loop: credentials, then the bootstrap gate. *)
Definition rollbackPrepare (w : World) (options : RollbackStackOptions)
    : M PreparedSdkForEnvironment :=
  let* prepared := prepareSdkFor w (rs_stack options) (rs_roleArn options)
                     ForWriting in
  (if nullish (rs_validateBootstrapStackVersion options) true
   then validateBootstrapStackVersion w
          (stackName (rs_stack options))
          (Some BOOTSTRAP_STACK_VERSION_FOR_ROLLBACK)
          (bootstrapStackVersionSsmParameter (rs_stack options))
          (envResources prepared)
   else ret tt) ;;
  ret prepared.

Definition rollbackStack (w : World) (options : RollbackStackOptions)
    : M RollbackStackResult :=
  let resourcesToSkip := nullish (rs_orphanLogicalIds options) [] in
  if truthy_boolean (rs_force options) && (0 <? length resourcesToSkip)%nat
  then throw combine_message
  else
    let* prepared := rollbackPrepare w options in
    let cfn := stackSdk prepared in
    let deployName := stackName (rs_stack options) in
    rollbackLoop w options cfn (cloudFormationRoleArn prepared) deployName
                 10 resourcesToSkip.

(** ** Lookup-role strategy *)

(** Template-literal rendering of [string | undefined]. *)
Definition render_optional (s : option string) : string :=
  nullish s "undefined".

Definition lookup_version_message (required live : Z) : string :=
  "Bootstrap stack version '" +:+ number_to_string required +:+
  "' is required, found version '" +:+ number_to_string live +:+
  "'. To get rid of this error, please upgrade to bootstrap version >= " +:+
  number_to_string required.

Definition not_assumed_message (lookUpRoleExists : bool) : string :=
  "Lookup role " +:+
  (if lookUpRoleExists then "exists but" else "does not exist, hence") +:+
  " was not assumed. Proceeding with default credentials.".

(** The guard of the version check: the role was assumed and the lookup
    role carries both a parameter name and a version requirement. *)
Definition lookupVersionCheckApplies (client : SdkForEnvironment)
    (stack : CloudFormationStackArtifact) : bool :=
  didAssumeRole client
  && truthy_string (lookupRole stack ≫= lr_bootstrapStackVersionSsmParameter)
  && truthy_number (lookupRole stack ≫= lr_requiresBootstrapStackVersion).

Definition prepareSdkWithLookupRoleFor (w : World)
    (stack : CloudFormationStackArtifact)
    : M PreparedSdkWithLookupRoleForEnvironment :=
  let* resolved := resolveEnvironment w (environment stack) in
  let* lookupRoleArn := replaceEnvPlaceholders1 w resolved
                          (option_map arn (lookupRole stack)) in
  let warningMessage :=
    "Could not assume " +:+ render_optional lookupRoleArn +:+
    ", proceeding anyway." in
  try_catch
    (let* client := cachedSdkForEnvironment w resolved ForReading
                      (Some {| assumeRoleArn := lookupRoleArn;
                               assumeRoleExternalId :=
                                 lookupRole stack ≫= lr_assumeRoleExternalId;
                               assumeRoleAdditionalOptions :=
                                 lookupRole stack
                                   ≫= lr_assumeRoleAdditionalOptions |}) in
     let er := environmentResources_for resolved (sdk client) in
     (if lookupVersionCheckApplies client stack
      then
        let param := nullish (lookupRole stack
                                ≫= lr_bootstrapStackVersionSsmParameter) "" in
        let required := nullish (lookupRole stack
                                   ≫= lr_requiresBootstrapStackVersion) 0%Z in
        let* version := versionFromSsmParameter w er param in
        if (version <? required)%Z
        then throw (lookup_version_message required version)
        else ret tt
      else if negb (didAssumeRole client)
      then warning (not_assumed_message
                      (match lookupRole stack with
                       | Some _ => true
                       | None => false
                       end))
      else ret tt) ;;
     ret {| lk_sdk := sdk client;
            lk_didAssumeRole := didAssumeRole client;
            lk_resolvedEnvironment := resolved;
            lk_envResources := er |})
    (λ message,
       debug message ;;
       (match lookupRole stack with
        | Some _ => warning warningMessage
        | None => ret tt
        end) ;;
       (if includes "Bootstrap stack version" message
        then error message
        else ret tt) ;;
       throw message).

(** [prepareSdkWithLookupOrDeployRole]: the lookup role when it could be
    assumed, the deploy role otherwise. *)
Definition prepareSdkWithLookupOrDeployRole (w : World)
    (stack : CloudFormationStackArtifact) : M PreparedSdkForEnvironment :=
  let* attempt :=
    try_catch
      (let* result := prepareSdkWithLookupRoleFor w stack in
       ret (if lk_didAssumeRole result
            then Some {| stackSdk := lk_sdk result;
                         resolvedEnvironment := lk_resolvedEnvironment result;
                         cloudFormationRoleArn := None;
                         envResources := lk_envResources result |}
            else None))
      (λ _, ret None) in
  match attempt with
  | Some prepared => ret prepared
  | None => prepareSdkFor w stack None ForReading
  end.

(** ** Asset publisher cache *)

(** [this.publisherCache.set(assetManifest, publisher)] *)
Definition publisherCache_set (m : AssetManifest) (p : AssetPublishing)
    : M unit :=
  λ d, (Returns tt,
        {| props := props d;
           history := history d;
           sdkCache := sdkCache d;
           publisherCache := <[m := p]> (publisherCache d);
           nextObject := nextObject d |}).

Definition cachedPublisher (w : World) (assetManifest : AssetManifest)
    (env : Environment) (name : option string) : M AssetPublishing :=
  λ d,
    match publisherCache d !! assetManifest with
    | Some existing => (Returns existing, d)
    | None =>
        let prefix :=
          if truthy_string name
          then w_chalk_bold w (nullish name "") +:+ ": "
          else "" in
        (let* publisher := fresh in
         emit (EvNewPublisher publisher assetManifest env prefix
                 (nullish (props_quiet (props d)) false)) ;;
         publisherCache_set assetManifest publisher ;;
         ret publisher) d
    end.

(** [publisher.hasFailures], read after the call. *)
Definition hasFailures (w : World) (p : AssetPublishing) : M bool :=
  λ d, (Returns (w_hasFailures w (history d) p), d).

Definition buildSingleAsset (w : World) (assetArtifact : AssetManifestArtifact)
    (assetManifest : AssetManifest) (asset : IManifestEntry)
    (options : AssetOptions) : M unit :=
  let* prepared := prepareSdkFor w (ao_stack options) (ao_roleArn options)
                     ForWriting in
  validateBootstrapStackVersion w
    (stackName (ao_stack options))
    (asset_requiresBootstrapStackVersion assetArtifact)
    (asset_bootstrapStackVersionSsmParameter assetArtifact)
    (envResources prepared) ;;
  let* publisher := cachedPublisher w assetManifest
                      (resolvedEnvironment prepared) (ao_stackName options) in
  call (EvPublisher BuildEntry assetManifest publisher asset)
       (λ h, w_publisherRun w h BuildEntry publisher asset) ;;
  let* failed := hasFailures w publisher in
  if failed
  then throw ("Failed to build asset " +:+ asset_id asset)
  else ret tt.

Definition publishSingleAsset (w : World) (assetManifest : AssetManifest)
    (asset : IManifestEntry) (options : AssetOptions) : M unit :=
  let* prepared := prepareSdkFor w (ao_stack options) (ao_roleArn options)
                     ForWriting in
  let* publisher := cachedPublisher w assetManifest
                      (resolvedEnvironment prepared) (ao_stackName options) in
  call (EvPublisher PublishEntry assetManifest publisher asset)
       (λ h, w_publisherRun w h PublishEntry publisher asset) ;;
  let* failed := hasFailures w publisher in
  if failed
  then throw ("Failed to publish asset " +:+ asset_id asset)
  else ret tt.

Definition isSingleAssetPublished (w : World) (assetManifest : AssetManifest)
    (asset : IManifestEntry) (options : AssetOptions) : M bool :=
  let* prepared := prepareSdkFor w (ao_stack options) (ao_roleArn options)
                     ForWriting in
  let* publisher := cachedPublisher w assetManifest
                      (resolvedEnvironment prepared) (ao_stackName options) in
  call (EvPublisher IsEntryPublished assetManifest publisher asset)
       (λ h, w_isEntryPublished w h publisher asset).

(** ** Runs of façade operations on one instance *)

(** One invocation of a façade operation. *)
Inductive Invocation :=
| InvDeployStack (options : DeployStackOptions)
| InvRollbackStack (options : RollbackStackOptions)
| InvPrepareSdkWithLookupRoleFor (stack : CloudFormationStackArtifact)
| InvPrepareSdkWithLookupOrDeployRole (stack : CloudFormationStackArtifact)
| InvPrepareSdkFor (stack : CloudFormationStackArtifact)
    (roleArn : option string) (mode : Mode)
| InvCachedSdkForEnvironment (env : Environment) (mode : Mode)
    (options : option CredentialsOptions)
| InvBuildSingleAsset (assetArtifact : AssetManifestArtifact)
    (assetManifest : AssetManifest) (asset : IManifestEntry)
    (options : AssetOptions)
| InvPublishSingleAsset (assetManifest : AssetManifest)
    (asset : IManifestEntry) (options : AssetOptions)
| InvIsSingleAssetPublished (assetManifest : AssetManifest)
    (asset : IManifestEntry) (options : AssetOptions).

(** The state an invocation leaves behind, whether it returns or throws. *)
Definition invoke (w : World) (i : Invocation) (d : Deployments)
    : Deployments :=
  match i with
  | InvDeployStack o => snd (deployStack w o d)
  | InvRollbackStack o => snd (rollbackStack w o d)
  | InvPrepareSdkWithLookupRoleFor s => snd (prepareSdkWithLookupRoleFor w s d)
  | InvPrepareSdkWithLookupOrDeployRole s =>
      snd (prepareSdkWithLookupOrDeployRole w s d)
  | InvPrepareSdkFor s r m => snd (prepareSdkFor w s r m d)
  | InvCachedSdkForEnvironment e m o => snd (cachedSdkForEnvironment w e m o d)
  | InvBuildSingleAsset a m e o => snd (buildSingleAsset w a m e o d)
  | InvPublishSingleAsset m e o => snd (publishSingleAsset w m e o d)
  | InvIsSingleAssetPublished m e o => snd (isSingleAssetPublished w m e o d)
  end.

(** A sequence of invocations, one after the other: each has returned or
    thrown before the next starts. *)
Definition run (w : World) (invocations : list Invocation) (d : Deployments)
    : Deployments :=
  foldl (λ d i, invoke w i d) d invocations.

(** ** Classes of events *)

Definition is_log (e : Event) : bool :=
  match e with
  | EvLog _ _ => true
  | _ => false
  end.

(** Environment and credential resolution. *)
Definition is_credential (e : Event) : bool :=
  match e with
  | EvResolveEnvironment _ | EvReplaceEnvPlaceholders _ _
  | EvForEnvironment _ _ _ => true
  | _ => false
  end.

(** Reads of the bootstrap version. *)
Definition is_versionRead (e : Event) : bool :=
  match e with
  | EvBootstrapVersion _ _ => true
  | _ => false
  end.

(** Polling, monitoring and waiting inside the rollback loop. *)
Definition is_observation (e : Event) : bool :=
  match e with
  | EvPoll _ _ _ | EvMonitorStart _ _ _ | EvMonitorStop
  | EvStabilizeStack _ _ => true
  | _ => false
  end.

Definition is_rollbackCall (e : Event) : bool :=
  match e with
  | EvRollbackStack _ _ | EvContinueUpdateRollback _ _ => true
  | _ => false
  end.

Definition is_deployCall (e : Event) : bool :=
  match e with
  | EvDeployStack _ => true
  | _ => false
  end.

Definition is_publisherEvent (e : Event) : bool :=
  match e with
  | EvNewPublisher _ _ _ _ _ | EvPublisher _ _ _ _ => true
  | _ => false
  end.

Definition is_continueCall (e : Event) : bool :=
  match e with
  | EvContinueUpdateRollback _ _ => true
  | _ => false
  end.


(** The state after [n] passes through the loop body that all ended with
    [continue]; [None] when one of them returned or threw. *)
Fixpoint continuedIterations (w : World) (options : RollbackStackOptions)
    (cfn : ISDK) (roleArn : option string) (deployName : string)
    (n : nat) (resourcesToSkip : list string) (d : Deployments)
    : option (list string * Deployments) :=
  match n with
  | O => Some (resourcesToSkip, d)
  | S n =>
      match rollbackIteration w options cfn roleArn deployName
              resourcesToSkip d with
      | (Returns (Continue resourcesToSkip), d') =>
          continuedIterations w options cfn roleArn deployName n
            resourcesToSkip d'
      | _ => None
      end
  end.

(** ** Concrete stacks and worlds *)

Module Sample.

Definition env : Environment :=
  {| env_name := "aws://111122223333/eu-west-1";
     account := "111122223333";
     region := "eu-west-1" |}.

Definition versionParameter : string := "/cdk-bootstrap/hnb659fds/version".

Definition role (requires : option Z) : BootstrapRole :=
  {| arn := "arn:aws:iam::111122223333:role/lookup";
     lr_assumeRoleExternalId := None;
     lr_assumeRoleAdditionalOptions := None;
     lr_requiresBootstrapStackVersion := requires;
     lr_bootstrapStackVersionSsmParameter := Some versionParameter |}.

(** A stack named [Orders] with the given bootstrap-version requirement,
    on the stack and on its lookup role. *)
Definition stack (requires : option Z) : CloudFormationStackArtifact :=
  {| stackName := "Orders";
     displayName := "Orders";
     environment := Some env;
     stack_assumeRoleArn := Some "arn:aws:iam::111122223333:role/deploy";
     stack_assumeRoleExternalId := None;
     stack_assumeRoleAdditionalOptions := None;
     cloudFormationExecutionRoleArn :=
       Some "arn:aws:iam::111122223333:role/cfn-exec";
     requiresBootstrapStackVersion := requires;
     bootstrapStackVersionSsmParameter := Some versionParameter;
     lookupRole := Some (role requires) |}.

Definition status (choice : RollbackChoice) (succeeded : bool)
    : CloudFormationStack :=
  {| exists_ := true;
     stackStatus := {| status_toString := "STATUS";
                       rollbackChoice := choice;
                       isRollbackSuccess := succeeded |} |}.

Definition failures : list ResourceEvent :=
  [ {| LogicalResourceId := Some "Queue";
       parentStackLogicalIds := [];
       isStackEvent := false |};
    {| LogicalResourceId := Some "Orders";
       parentStackLogicalIds := [];
       isStackEvent := true |};
    {| LogicalResourceId := Some "Inner";
       parentStackLogicalIds := ["Nested"];
       isStackEvent := false |};
    {| LogicalResourceId := None;
       parentStackLogicalIds := [];
       isStackEvent := false |} ].

(** A world in which the role is assumed or not ([assumed]), every
    lookup reports [choice], the environment reports bootstrap version
    [live], and the wait for stabilization throws [waitError] when one is
    given and otherwise ends in a completed rollback. *)
Definition world (assumed : bool) (choice : RollbackChoice) (live : Z)
    (waitError : option string) : World :=
  {| w_resolveEnvironment := λ _ _, Returns env;
     w_replaceEnvPlaceholders := λ _ _ s, Returns s;
     w_forEnvironment := λ _ _ _ _, Returns assumed;
     w_JSON_stringify := λ o, join "," (map (λ kv, fst kv +:+ "=" +:+ snd kv) o);
     w_bootstrapVersion := λ _ _ _, Returns live;
     w_versionMismatchMessage := λ required found,
       "This CDK deployment requires bootstrap stack version '" +:+
       number_to_string required +:+ "', found '" +:+
       number_to_string found +:+ "'. Please run 'cdk bootstrap'.";
     w_lookup := λ _ _, Returns (status choice false);
     w_rollbackStack := λ _ _, Returns tt;
     w_continueUpdateRollback := λ _ _, Returns tt;
     w_poll := λ _ _ _, Returns failures;
     w_randomUUID := λ h, "token-" +:+ pretty (length h);
     w_monitorErrors := λ _, [];
     w_stabilizeStack := λ _ _,
       match waitError with
       | Some message => Throws message
       | None => Returns (Some (status NONE true))
       end;
     w_deployStack := λ _ _, Returns "deployed";
     w_publisherRun := λ _ _ _ _, Returns tt;
     w_isEntryPublished := λ _ _ _, Returns false;
     w_hasFailures := λ _ _, false;
     w_chalk_bold := λ s, s |}.

Definition rollbackOptions (requires : option Z) (force : option bool)
    (orphan : option (list string)) (validate : option bool)
    : RollbackStackOptions :=
  {| rs_stack := stack requires;
     rs_roleArn := None;
     rs_quiet := Some true;
     rs_ci := None;
     rs_force := force;
     rs_orphanLogicalIds := orphan;
     rs_validateBootstrapStackVersion := validate |}.

Definition deployOptions (requires : option Z) : DeployStackOptions :=
  {| ds_stack := stack requires;
     ds_roleArn := None;
     ds_deploymentMethod := None;
     ds_changeSetName := None;
     ds_execute := None |}.

Definition assetOptions : AssetOptions :=
  {| ao_stack := stack None;
     ao_roleArn := None;
     ao_stackName := Some "Orders" |}.

Definition fresh_instance : Deployments :=
  new_Deployments {| props_quiet := None |}.

Definition asset : IManifestEntry := {| asset_id := "asset-1" |}.

Definition artifact : AssetManifestArtifact :=
  {| asset_requiresBootstrapStackVersion := Some 6%Z;
     asset_bootstrapStackVersionSsmParameter := Some versionParameter |}.


(** A rollback, then one more publish for the same manifest. *)
Definition laterCalls : list Invocation :=
  [ InvRollbackStack (rollbackOptions None None None None);
    InvPublishSingleAsset 7%nat asset assetOptions ].

End Sample.


(** ** How an operation may change the state *)

(** The history is extended by events satisfying [P], both caches keep
    their entries, object identities are never handed out twice, and the
    publisher cache only changes when a publisher event is added. *)
Definition evolves (P : Event → Prop) (d d' : Deployments) : Prop :=
  (∃ new, history d' = (new ++ history d)%list ∧ Forall P new)
  ∧ sdkCache d ⊆ sdkCache d'
  ∧ publisherCache d ⊆ publisherCache d'
  ∧ props d' = props d
  ∧ (nextObject d ≤ nextObject d')%nat
  ∧ (count is_publisherEvent (history d')
     = count is_publisherEvent (history d) →
     publisherCache d' = publisherCache d).

(** An operation is stable for [P] when, from every state and whether it
    returns or throws, the state it leaves evolves the one it found. *)
Definition stable (P : Event → Prop) {A : Type} (m : M A) : Prop :=
  ∀ d, evolves P d (snd (m d)).

(** ** Coherence of the publisher cache *)



(** ** stackExists *)

(** [StackExistsOptions] *)
Record StackExistsOptions := {
  se_stack : CloudFormationStackArtifact;
  se_deployName : option string;
  se_tryLookupRole : option bool;
}.

Definition stackExists (w : World) (options : StackExistsOptions) : M bool :=
  let* prepared :=
    if truthy_boolean (se_tryLookupRole options)
    then prepareSdkWithLookupOrDeployRole w (se_stack options)
    else prepareSdkFor w (se_stack options) None ForReading in
  let name := nullish (se_deployName options)
                (stackName (se_stack options)) in
  let* found := call (EvLookup (stackSdk prepared) name)
                     (λ h, w_lookup w h name) in
  ret (exists_ found).

(** ** Shape of the calls made by the rollback loop *)

(** What the loop of [rollbackStack] may add to the history, for the
    client [cfn] and the execution role [roleArn] it was started with:
    rollback and continue calls for the stack of the options, with that
    role; rollback initiations that retain resources; without [force], the
    orphan list of the options as skip list and no poll of the events; and
    never a deployment. *)
Definition rollbackLoopEvent (options : RollbackStackOptions) (cfn : ISDK)
    (roleArn : option string) (e : Event) : Prop :=
  match e with
  | EvRollbackStack c input =>
      c = cfn
      ∧ rb_StackName input = stackName (rs_stack options)
      ∧ rb_RoleARN input = roleArn
      ∧ rb_RetainExceptOnCreate input = true
  | EvContinueUpdateRollback c input =>
      c = cfn
      ∧ cur_StackName input = stackName (rs_stack options)
      ∧ cur_RoleARN input = roleArn
      ∧ (truthy_boolean (rs_force options) = false →
         cur_ResourcesToSkip input = nullish (rs_orphanLogicalIds options) [])
  | EvPoll _ _ _ => truthy_boolean (rs_force options) = true
  | EvLog _ _ | EvLookup _ _ | EvMonitorStart _ _ _ | EvMonitorStop
  | EvStabilizeStack _ _ => True
  | _ => False
  end.

(** ** Further concrete scenarios *)

Module Scenario.

(** [w] with another credential provider. *)
Definition with_forEnvironment (w : World)
    (provider : History → Environment → Mode → option CredentialsOptions
                → Result bool) : World :=
  {| w_resolveEnvironment := w_resolveEnvironment w;
     w_replaceEnvPlaceholders := w_replaceEnvPlaceholders w;
     w_forEnvironment := provider;
     w_JSON_stringify := w_JSON_stringify w;
     w_bootstrapVersion := w_bootstrapVersion w;
     w_versionMismatchMessage := w_versionMismatchMessage w;
     w_lookup := w_lookup w;
     w_rollbackStack := w_rollbackStack w;
     w_continueUpdateRollback := w_continueUpdateRollback w;
     w_poll := w_poll w;
     w_randomUUID := w_randomUUID w;
     w_monitorErrors := w_monitorErrors w;
     w_stabilizeStack := w_stabilizeStack w;
     w_deployStack := w_deployStack w;
     w_publisherRun := w_publisherRun w;
     w_isEntryPublished := w_isEntryPublished w;
     w_hasFailures := w_hasFailures w;
     w_chalk_bold := w_chalk_bold w |}.

(** A world in which no role can be assumed and no default credentials
    fit. *)
Definition offline : World :=
  with_forEnvironment (Sample.world true NONE 30 None)
    (λ _ _ _ _, Throws "Could not assume role").

(** A world whose publishers report failures. *)
Definition failing : World :=
  {| w_resolveEnvironment := w_resolveEnvironment (Sample.world true NONE 30 None);
     w_replaceEnvPlaceholders :=
       w_replaceEnvPlaceholders (Sample.world true NONE 30 None);
     w_forEnvironment := w_forEnvironment (Sample.world true NONE 30 None);
     w_JSON_stringify := w_JSON_stringify (Sample.world true NONE 30 None);
     w_bootstrapVersion := w_bootstrapVersion (Sample.world true NONE 30 None);
     w_versionMismatchMessage :=
       w_versionMismatchMessage (Sample.world true NONE 30 None);
     w_lookup := w_lookup (Sample.world true NONE 30 None);
     w_rollbackStack := w_rollbackStack (Sample.world true NONE 30 None);
     w_continueUpdateRollback :=
       w_continueUpdateRollback (Sample.world true NONE 30 None);
     w_poll := w_poll (Sample.world true NONE 30 None);
     w_randomUUID := w_randomUUID (Sample.world true NONE 30 None);
     w_monitorErrors := w_monitorErrors (Sample.world true NONE 30 None);
     w_stabilizeStack := w_stabilizeStack (Sample.world true NONE 30 None);
     w_deployStack := w_deployStack (Sample.world true NONE 30 None);
     w_publisherRun := w_publisherRun (Sample.world true NONE 30 None);
     w_isEntryPublished :=
       w_isEntryPublished (Sample.world true NONE 30 None);
     w_hasFailures := λ _ _, true;
     w_chalk_bold := w_chalk_bold (Sample.world true NONE 30 None) |}.

(** The stack [Orders] without an environment. *)
Definition homeless : CloudFormationStackArtifact :=
  {| stackName := "Orders";
     displayName := "Orders";
     environment := None;
     stack_assumeRoleArn := None;
     stack_assumeRoleExternalId := None;
     stack_assumeRoleAdditionalOptions := None;
     cloudFormationExecutionRoleArn := None;
     requiresBootstrapStackVersion := None;
     bootstrapStackVersionSsmParameter := None;
     lookupRole := None |}.

Definition changeSet : DeploymentMethod :=
  {| method := "change-set";
     dm_changeSetName := Some "review";
     dm_execute := Some false |}.

(** Deployment options that use the legacy change-set fields, with or
    without a deployment method beside them. *)
Definition legacyDeploy (given : option DeploymentMethod)
    : DeployStackOptions :=
  {| ds_stack := Sample.stack None;
     ds_roleArn := Some "arn:aws:iam::111122223333:role/override";
     ds_deploymentMethod := given;
     ds_changeSetName := Some "review";
     ds_execute := Some false |}.

Definition existsOptions : StackExistsOptions :=
  {| se_stack := Sample.stack None;
     se_deployName := Some "Orders-blue";
     se_tryLookupRole := Some true |}.

Definition prepared : PreparedSdkForEnvironment :=
  {| stackSdk := 0%nat;
     resolvedEnvironment := Sample.env;
     cloudFormationRoleArn := Some "arn:aws:iam::111122223333:role/cfn-exec";
     envResources := environmentResources_for Sample.env 0%nat |}.

End Scenario.

(** * Properties *)

Local Open Scope list_scope.

(** ** Counting events *)

Lemma count_app p (h1 h2 : list Event) :
  count p (h1 ++ h2) = (count p h1 + count p h2)%nat.
Proof. unfold count. by rewrite filter_app, length_app. Qed.

Lemma count_cons p e (h : list Event) :
  count p (e :: h) = ((if p e then 1 else 0) + count p h)%nat.
Proof.
  unfold count. rewrite filter_cons.
  destruct (p e); by case_decide.
Qed.

Lemma count_none p (h : list Event) :
  Forall (λ e, p e = false) h → count p h = 0%nat.
Proof.
  induction 1 as [| e h He _ IH]; [done |].
  by rewrite count_cons, He, IH.
Qed.

(** ** Composition of stable operations *)

Section Stable.

(** What may be said of every event an operation adds. *)
Context (P : Event → Prop).

Lemma evolves_refl d : evolves P d d.
Proof.
  split; [exists []; split; [done | constructor] | done].
Qed.

Lemma evolves_trans d1 d2 d3 : evolves P d1 d2 → evolves P d2 d3 → evolves P d1 d3.
Proof.
  intros [[n1 [E1 F1]] [S1 [C1 [Q1 [N1 K1]]]]]
         [[n2 [E2 F2]] [S2 [C2 [Q2 [N2 K2]]]]].
  split; [| split; [| split; [| split; [| split]]]].
  - exists (n2 ++ n1)%list. split.
    + rewrite E2, E1. by rewrite app_assoc.
    + by apply Forall_app.
  - by etrans.
  - by etrans.
  - congruence.
  - lia.
  - intros Hsame. rewrite E2, count_app in K2. rewrite E1, count_app in K1.
    rewrite E2, E1, !count_app in Hsame.
    rewrite K2 by lia. apply K1. lia.
Qed.

Lemma stable_ret {A : Type} (a : A) : stable P (ret a).
Proof. intros d. apply evolves_refl. Qed.

Lemma stable_throw {A : Type} (msg : string) : stable P (@throw A msg).
Proof. intros d. apply evolves_refl. Qed.

Lemma stable_read {A : Type} (f : Deployments → A) :
  stable P (λ d, (Returns (f d), d)).
Proof. intros d. apply evolves_refl. Qed.

Lemma stable_bind {A B : Type} (m : M A) (k : A → M B) :
  stable P m → (∀ a, stable P (k a)) → stable P (bind m k).
Proof.
  intros Hm Hk d. unfold bind. specialize (Hm d).
  destruct (m d) as [[a | msg] d']; simpl in *; [| done].
  eapply evolves_trans; [exact Hm | apply Hk].
Qed.

Lemma stable_try_catch {A : Type} (m : M A) (handler : string → M A) :
  stable P m → (∀ msg, stable P (handler msg)) → stable P (try_catch m handler).
Proof.
  intros Hm Hh d. unfold try_catch. specialize (Hm d).
  destruct (m d) as [[a | msg] d']; simpl in *; [done |].
  eapply evolves_trans; [exact Hm | apply Hh].
Qed.

Lemma evolves_record e d : P e → evolves P d (record e d).
Proof.
  intros He. split; [| done].
  exists [e]. split; [done | by constructor].
Qed.

Lemma stable_call {A : Type} e (answer : History → Result A) :
  P e → stable P (call e answer).
Proof. intros He d. by apply evolves_record. Qed.

Lemma stable_emit e : P e → stable P (emit e).
Proof. intros He d. by apply evolves_record. Qed.

Lemma stable_fresh : stable P fresh.
Proof.
  intros d. split; [exists []; split; [done | constructor] |].
  simpl. repeat split; try done. lia.
Qed.

Lemma stable_if {A : Type} (b : bool) (m1 m2 : M A) :
  stable P m1 → stable P m2 → stable P (if b then m1 else m2).
Proof. by destruct b. Qed.

End Stable.

(** ** Stability of the operations *)

Ltac solve_event :=
  match goal with
  | H : ∀ e, _ e = true → ?P e |- ?P _ => apply H; reflexivity
  end.

Ltac stable_step :=
  first
    [ solve [auto]
    | apply stable_ret
    | apply stable_throw
    | apply stable_fresh
    | apply stable_read
    | apply stable_call; solve_event
    | apply stable_emit; solve_event
    | apply stable_bind; [| intros ?]
    | apply stable_try_catch; [| intros ?] ].

Ltac stable_auto :=
  unfold debug, warning, error;
  repeat first [ stable_step | case_match ].

Section Operations.

Context (w : World) (P : Event → Prop).

Hypothesis Hlog : ∀ e, is_log e = true → P e.
Hypothesis Hcred : ∀ e, is_credential e = true → P e.
Hypothesis Hver : ∀ e, is_versionRead e = true → P e.
Hypothesis Hval : ∀ e, is_validateVersion e = true → P e.
Hypothesis Hlook : ∀ e, is_lookup e = true → P e.
Hypothesis Hobs : ∀ e, is_observation e = true → P e.
Hypothesis Hrb : ∀ e, is_rollbackCall e = true → P e.
Hypothesis Hdep : ∀ e, is_deployCall e = true → P e.
Hypothesis Hpub : ∀ e, is_publisherEvent e = true → P e.

Lemma stable_cachedSdkForEnvironment env mode options :
  stable P (cachedSdkForEnvironment w env mode options).
Proof.
  intros d.
  unfold cachedSdkForEnvironment, cachedSdkForEnvironment_start.
  destruct (sdkCache d !! cacheKey w env mode options) as [c |] eqn:Hkey;
    [apply evolves_refl |].
  cbv [cachedSdkForEnvironment_resume bind forEnvironment call fresh
       sdkCache_set ret throw].
  destruct (w_forEnvironment w (history d) env mode options); simpl.
  - split; [| repeat split; simpl; try done; try lia].
    + exists [EvForEnvironment env mode options]. split; [done |].
      constructor; [solve_event | constructor].
    + by apply insert_subseteq.
  - apply evolves_record. solve_event.
Qed.

Lemma stable_prepareSdkFor stack roleArn mode :
  stable P (prepareSdkFor w stack roleArn mode).
Proof.
  pose proof stable_cachedSdkForEnvironment.
  unfold prepareSdkFor, resolveEnvironment, replaceEnvPlaceholders2.
  stable_auto.
Qed.

Lemma stable_validateVersion er expected param :
  stable P (validateVersion w er expected param).
Proof. unfold validateVersion. stable_auto. Qed.

Lemma stable_validateBootstrapStackVersion name requires param er :
  stable P (validateBootstrapStackVersion w name requires param er).
Proof.
  pose proof stable_validateVersion.
  unfold validateBootstrapStackVersion. stable_auto.
Qed.

Lemma stable_deployStack options : stable P (deployStack w options).
Proof.
  pose proof stable_prepareSdkFor.
  pose proof stable_validateBootstrapStackVersion.
  unfold deployStack. stable_auto.
Qed.

Lemma stable_rollbackSwitch options cfn roleArn name st skip :
  stable P (rollbackSwitch w options cfn roleArn name st skip).
Proof. unfold rollbackSwitch. stable_auto. Qed.

Lemma stable_monitoredWait options cfn name st :
  stable P (monitoredWait w options cfn name st).
Proof. unfold monitoredWait, monitor_errors. stable_auto. Qed.

Lemma stable_afterWait options skip waited :
  stable P (afterWait options skip waited).
Proof. unfold afterWait. stable_auto. Qed.

Lemma stable_rollbackIteration options cfn roleArn name skip :
  stable P (rollbackIteration w options cfn roleArn name skip).
Proof.
  pose proof stable_rollbackSwitch.
  pose proof stable_monitoredWait.
  pose proof stable_afterWait.
  unfold rollbackIteration. stable_auto.
Qed.

Lemma stable_rollbackLoop options cfn roleArn name maxLoops skip :
  stable P (rollbackLoop w options cfn roleArn name maxLoops skip).
Proof.
  pose proof stable_rollbackIteration.
  revert skip. induction maxLoops as [| n IH]; intros skip;
    cbn [rollbackLoop]; stable_auto.
Qed.

Lemma stable_rollbackPrepare options : stable P (rollbackPrepare w options).
Proof.
  pose proof stable_prepareSdkFor.
  pose proof stable_validateBootstrapStackVersion.
  unfold rollbackPrepare. stable_auto.
Qed.

Lemma stable_rollbackStack options : stable P (rollbackStack w options).
Proof.
  pose proof stable_rollbackPrepare.
  pose proof stable_rollbackLoop.
  unfold rollbackStack. stable_auto.
Qed.

Lemma stable_prepareSdkWithLookupRoleFor stack :
  stable P (prepareSdkWithLookupRoleFor w stack).
Proof.
  pose proof stable_cachedSdkForEnvironment.
  unfold prepareSdkWithLookupRoleFor, resolveEnvironment,
    replaceEnvPlaceholders1, versionFromSsmParameter.
  stable_auto.
Qed.

Lemma stable_prepareSdkWithLookupOrDeployRole stack :
  stable P (prepareSdkWithLookupOrDeployRole w stack).
Proof.
  pose proof stable_prepareSdkWithLookupRoleFor.
  pose proof stable_prepareSdkFor.
  unfold prepareSdkWithLookupOrDeployRole. stable_auto.
Qed.

Lemma stable_cachedPublisher m env name :
  stable P (cachedPublisher w m env name).
Proof.
  intros d. unfold cachedPublisher.
  destruct (publisherCache d !! m) as [p |] eqn:Hm; [apply evolves_refl |].
  cbv [bind fresh emit publisherCache_set ret]. simpl.
  split; [| split; [| split; [| split; [| split]]]];
    simpl; try done; try lia.
  - eexists [_]. split; [done |].
    constructor; [solve_event | constructor].
  - by apply insert_subseteq.
  - rewrite count_cons. simpl. lia.
Qed.

Lemma stable_buildSingleAsset artifact m asset options :
  stable P (buildSingleAsset w artifact m asset options).
Proof.
  pose proof stable_prepareSdkFor.
  pose proof stable_validateBootstrapStackVersion.
  pose proof stable_cachedPublisher.
  unfold buildSingleAsset, hasFailures. stable_auto.
Qed.

Lemma stable_publishSingleAsset m asset options :
  stable P (publishSingleAsset w m asset options).
Proof.
  pose proof stable_prepareSdkFor.
  pose proof stable_cachedPublisher.
  unfold publishSingleAsset, hasFailures. stable_auto.
Qed.

Lemma stable_isSingleAssetPublished m asset options :
  stable P (isSingleAssetPublished w m asset options).
Proof.
  pose proof stable_prepareSdkFor.
  pose proof stable_cachedPublisher.
  unfold isSingleAssetPublished. stable_auto.
Qed.

End Operations.

Lemma evolves_count p d d' :
  evolves (λ e, p e = false) d d' →
  count p (history d') = count p (history d).
Proof.
  intros [[new [-> Hnew]] _].
  by rewrite count_app, (count_none _ _ Hnew).
Qed.

(** Running a bind whose first part is known. *)
Lemma bind_run {A B : Type} (m : M A) (k : A → M B) d :
  bind m k d = match m d with
               | (Returns a, d') => k a d'
               | (Throws msg, d') => (Throws msg, d')
               end.
Proof. reflexivity. Qed.

Lemma bind_returns {A B : Type} (m : M A) (k : A → M B) d a d' :
  m d = (Returns a, d') → bind m k d = k a d'.
Proof. intros H. unfold bind. by rewrite H. Qed.

Lemma bind_throws {A B : Type} (m : M A) (k : A → M B) d msg d' :
  m d = (Throws msg, d') → bind m k d = (Throws msg, d').
Proof. intros H. unfold bind. by rewrite H. Qed.

(** Credential resolution and the bootstrap gate make no mutating call. *)
Lemma rollbackPrepare_not_mutating w options d :
  count is_mutating (history (snd (rollbackPrepare w options d)))
  = count is_mutating (history d).
Proof.
  apply evolves_count.
  apply stable_rollbackPrepare; by intros [].
Qed.

(** ** The rollback orchestrator *)

(** C9: with [force] set and a non-empty orphan list, [rollbackStack]
    throws "Cannot combine --force with --orphan" at once: the instance is
    left exactly as it was, so no credential was resolved, the bootstrap
    gate was not consulted and no mutating call was made. *)
Theorem rollbackStack_force_with_orphan_rejected w options d ids :
  rs_force options = Some true →
  rs_orphanLogicalIds options = Some ids →
  ids ≠ [] →
  rollbackStack w options d = (Throws combine_message, d).
Proof.
  intros Hforce Hids Hne. unfold rollbackStack.
  rewrite Hforce, Hids. destruct ids as [| i ids]; [done |]. reflexivity.
Qed.

Lemma rollbackStack_force_with_orphan_rejected_witness :
  rollbackStack (Sample.world true CONTINUE_UPDATE_ROLLBACK 30 None)
    (Sample.rollbackOptions None (Some true) (Some ["Queue"]) None)
    Sample.fresh_instance
  = (Throws combine_message, Sample.fresh_instance).
Proof.
  apply (rollbackStack_force_with_orphan_rejected _ _ _ ["Queue"]);
    [reflexivity | reflexivity | discriminate].
Defined.

(** C1: when the first poll of a rollback reports the choice [NONE] or
    [ROLLBACK_FAILED], [rollbackStack] returns
    [{notInRollbackableState: true}] and the number of mutating calls in
    the history is the one it started with. *)
Theorem rollbackStack_not_in_rollbackable_state w options d prepared d1 st :
  truthy_boolean (rs_force options)
    && (0 <? length (nullish (rs_orphanLogicalIds options) []))%nat = false →
  rollbackPrepare w options d = (Returns prepared, d1) →
  w_lookup w (history d1) (stackName (rs_stack options)) = Returns st →
  rollbackChoice (stackStatus st) = NONE
    ∨ rollbackChoice (stackStatus st) = ROLLBACK_FAILED →
  ∃ d2,
    rollbackStack w options d
    = (Returns {| notInRollbackableState := Some true; success := None |}, d2)
    ∧ count is_mutating (history d2) = count is_mutating (history d)
    ∧ count is_lookup (history d2) = S (count is_lookup (history d1)).
Proof.
  intros Hcombine Hprepare Hlookup Hchoice.
  pose proof (rollbackPrepare_not_mutating w options d) as Hcount.
  rewrite Hprepare in Hcount. simpl in Hcount.
  unfold rollbackStack. rewrite Hcombine.
  rewrite (bind_returns _ _ _ _ _ Hprepare).
  cbn [rollbackLoop]. unfold rollbackIteration.
  cbv [bind call]. rewrite Hlookup. unfold rollbackSwitch.
  destruct Hchoice as [-> | ->]; cbv [bind warning emit ret];
    (eexists; split; [reflexivity |]); simpl;
    rewrite !count_cons; simpl; by rewrite Hcount.
Qed.

Lemma rollbackStack_not_in_rollbackable_state_witness :
  ∃ d2,
    rollbackStack (Sample.world true ROLLBACK_FAILED 30 None)
      (Sample.rollbackOptions None (Some true) None None)
      Sample.fresh_instance
    = (Returns {| notInRollbackableState := Some true; success := None |}, d2)
    ∧ count is_mutating (history d2)
      = count is_mutating (history Sample.fresh_instance)
    ∧ count is_lookup (history d2)
      = S (count is_lookup
             (history (snd (rollbackPrepare
                              (Sample.world true ROLLBACK_FAILED 30 None)
                              (Sample.rollbackOptions None (Some true) None None)
                              Sample.fresh_instance)))).
Proof.
  eapply (rollbackStack_not_in_rollbackable_state
            (Sample.world true ROLLBACK_FAILED 30 None)
            (Sample.rollbackOptions None (Some true) None None)
            Sample.fresh_instance
            {| stackSdk := 0%nat;
               resolvedEnvironment := Sample.env;
               cloudFormationRoleArn :=
                 Some "arn:aws:iam::111122223333:role/cfn-exec";
               envResources := environmentResources_for Sample.env 0%nat |}
            _
            (Sample.status ROLLBACK_FAILED false)).
  - reflexivity.
  - vm_compute. reflexivity.
  - reflexivity.
  - right. reflexivity.
Defined.

(** ** The bootstrap gate inside rollbackStack *)





(** ** The skip set of a forced continuation *)

Lemma failedResourcesToSkip_elem (resourceErrors : list ResourceEvent) id :
  id ∈ failedResourcesToSkip resourceErrors
  ↔ ∃ r, r ∈ resourceErrors
         ∧ isStackEvent r = false
         ∧ parentStackLogicalIds r = []
         ∧ id = nullish (LogicalResourceId r) "".
Proof.
  unfold failedResourcesToSkip. rewrite list_elem_of_fmap. split.
  - intros [r [-> Hr]]. apply list_elem_of_filter in Hr as [Hkeep Hr].
    exists r. apply andb_true_iff in Hkeep as [Hstack Hparents].
    apply negb_true_iff in Hstack. apply Nat.eqb_eq in Hparents.
    destruct (parentStackLogicalIds r); [done | discriminate].
  - intros [r [Hr [Hstack [Hparents ->]]]]. exists r. split; [done |].
    apply list_elem_of_filter. split; [| done].
    by rewrite Hstack, Hparents.
Qed.

(** C8: in the [CONTINUE_UPDATE_ROLLBACK] branch with [force] set, the
    event history is polled for the two rollback-in-progress statuses, and
    the [ResourcesToSkip] of the continue call are the logical ids of
    exactly those reported failures that are not stack events and have no
    parent-stack logical id, in the order reported; this list replaces
    whatever list was carried into the iteration. *)
Theorem forced_continue_skips_failed_resources
    w options cfn roleArn name st prior d resourceErrors :
  rollbackChoice (stackStatus st) = CONTINUE_UPDATE_ROLLBACK →
  rs_force options = Some true →
  w_poll w (history d) name
    ["ROLLBACK_IN_PROGRESS"; "UPDATE_ROLLBACK_IN_PROGRESS"]
    = Returns resourceErrors →
  ∃ input message outcome d',
    rollbackSwitch w options cfn roleArn name st prior d = (outcome, d')
    ∧ history d'
      = EvContinueUpdateRollback cfn input
        :: EvLog Warning message
        :: EvPoll cfn name
             ["ROLLBACK_IN_PROGRESS"; "UPDATE_ROLLBACK_IN_PROGRESS"]
        :: history d
    ∧ cur_ResourcesToSkip input
      = map (λ r, nullish (LogicalResourceId r) "")
          (filter (λ r, isStackEvent r = false
                        ∧ parentStackLogicalIds r = []) resourceErrors)
    ∧ (∀ id, id ∈ cur_ResourcesToSkip input
             ↔ ∃ r, r ∈ resourceErrors
                    ∧ isStackEvent r = false
                    ∧ parentStackLogicalIds r = []
                    ∧ id = nullish (LogicalResourceId r) "")
    ∧ (∀ switched, outcome = Returns switched →
                   switched = Break (cur_ResourcesToSkip input)).
Proof.
  intros Hchoice Hforce Hpoll.
  unfold rollbackSwitch. rewrite Hchoice, Hforce.
  cbv [bind call warning emit ret truthy_boolean].
  unfold rollbackInProgressStatuses. rewrite Hpoll. simpl.
  match goal with
  | |- context [w_continueUpdateRollback w ?h ?i] =>
      destruct (w_continueUpdateRollback w h i) as [[] | msg]
  end;
    (eexists _, _, _, _; split; [reflexivity |];
     split; [reflexivity |]; simpl; split; [| split];
     [ unfold failedResourcesToSkip; f_equal;
       apply list_filter_iff; intros r;
       destruct (isStackEvent r), (parentStackLogicalIds r); simpl;
       split; intros H; try done; by destruct H
     | apply failedResourcesToSkip_elem
     | intros switched Hout; by inversion Hout ]).
Qed.

Lemma forced_continue_skips_failed_resources_witness :
  ∃ input message outcome d',
    rollbackSwitch (Sample.world true CONTINUE_UPDATE_ROLLBACK 30 None)
      (Sample.rollbackOptions None (Some true) None None)
      0%nat None "Orders" (Sample.status CONTINUE_UPDATE_ROLLBACK false)
      ["Stale"] Sample.fresh_instance = (outcome, d')
    ∧ history d'
      = EvContinueUpdateRollback 0%nat input
        :: EvLog Warning message
        :: EvPoll 0%nat "Orders"
             ["ROLLBACK_IN_PROGRESS"; "UPDATE_ROLLBACK_IN_PROGRESS"]
        :: history Sample.fresh_instance
    ∧ cur_ResourcesToSkip input = ["Queue"; ""]
    ∧ outcome = Returns (Break ["Queue"; ""]).
Proof.
  destruct (forced_continue_skips_failed_resources
              (Sample.world true CONTINUE_UPDATE_ROLLBACK 30 None)
              (Sample.rollbackOptions None (Some true) None None)
              0%nat None "Orders" (Sample.status CONTINUE_UPDATE_ROLLBACK false)
              ["Stale"] Sample.fresh_instance Sample.failures
              eq_refl eq_refl eq_refl)
    as [input [message [outcome [d' [Hrun [Hhistory [Hskip [_ Hout]]]]]]]].
  exists input, message, outcome, d'.
  split; [exact Hrun |]. split; [exact Hhistory |].
  split; [exact Hskip |].
  vm_compute in Hrun. inversion Hrun. reflexivity.
Defined.

(** ** The bound on the rollback loop *)

Lemma last_char_app (s t : string) :
  t ≠ "" → last_char (s +:+ t) = last_char t.
Proof.
  intros Ht. induction s as [| c s IH]; [done |].
  simpl. rewrite IH.
  destruct (s +:+ t) eqn:Happ; [| done].
  destruct s; [by destruct t | discriminate].
Qed.

Lemma no_progress_is_not_iteration_message m :
  no_progress_message ≠ iteration_message m.
Proof.
  intros Heq. apply (f_equal last_char) in Heq.
  unfold iteration_message in Heq.
  rewrite last_char_app in Heq; [| done].
  vm_compute in Heq. discriminate.
Qed.

Lemma no_progress_is_not_unexpected_choice r :
  no_progress_message ≠ unexpected_choice_message r.
Proof. intros Heq. vm_compute in Heq. discriminate. Qed.

(** What follows the lookup in an iteration makes no lookup of its own. *)
Lemma rollbackIteration_one_lookup w options cfn roleArn name skip d :
  count is_lookup
    (history (snd (rollbackIteration w options cfn roleArn name skip d)))
  = S (count is_lookup (history d)).
Proof.
  set (Q := λ e : Event, is_lookup e = false).
  assert (Qlog : ∀ e, is_log e = true → Q e) by (by intros []).
  assert (Qobs : ∀ e, is_observation e = true → Q e) by (by intros []).
  assert (Qrb : ∀ e, is_rollbackCall e = true → Q e) by (by intros []).
  unfold rollbackIteration. rewrite bind_run. unfold call at 1.
  destruct (w_lookup w (history d) name) as [st | msg];
    [| cbn [snd history record]; by rewrite count_cons].
  match goal with
  | |- context [bind ?m ?k ?d0] =>
      assert (Hrest : stable Q (bind m k))
  end.
  { apply stable_bind; [by apply stable_rollbackSwitch |].
    intros [skip' | result]; [| apply stable_ret].
    apply stable_bind; [by apply stable_monitoredWait |].
    intros waited. by apply stable_afterWait. }
  rewrite (evolves_count _ _ _ (Hrest _)).
  cbn [snd history record]. by rewrite count_cons.
Qed.

Lemma rollbackLoop_lookups w options cfn roleArn name maxLoops skip d :
  (count is_lookup
     (history (snd (rollbackLoop w options cfn roleArn name maxLoops skip d)))
   ≤ count is_lookup (history d) + maxLoops)%nat.
Proof.
  revert skip d. induction maxLoops as [| n IH]; intros skip d;
    cbn [rollbackLoop]; [simpl; lia |].
  rewrite bind_run.
  pose proof (rollbackIteration_one_lookup w options cfn roleArn name skip d)
    as Hone.
  destruct (rollbackIteration w options cfn roleArn name skip d)
    as [[[skip' | result] | msg] d']; simpl in Hone |- *; try lia.
  specialize (IH skip' d'). lia.
Qed.

Lemma continuedIterations_exhaust w options cfn roleArn name n :
  ∀ skip d skip' d',
    continuedIterations w options cfn roleArn name n skip d
      = Some (skip', d') →
    rollbackLoop w options cfn roleArn name n skip d
      = (Throws no_progress_message, d')
    ∧ count is_lookup (history d') = (count is_lookup (history d) + n)%nat.
Proof.
  induction n as [| n IH]; intros skip d skip' d' Hrun;
    cbn [rollbackLoop continuedIterations] in *.
  - inversion Hrun; subst. split; [done | lia].
  - rewrite bind_run.
    pose proof (rollbackIteration_one_lookup w options cfn roleArn name
                  skip d) as Hone.
    destruct (rollbackIteration w options cfn roleArn name skip d)
      as [[[skip1 | result] | msg] d1]; try discriminate.
    simpl in Hone. destruct (IH _ _ _ _ Hrun) as [Hloop Hcount].
    split; [exact Hloop | lia].
Qed.

(** C2: whatever the input, [rollbackStack] polls the stack at most ten
    times, once at the head of every pass through the loop.  When ten
    passes in a row end with [continue], it throws the "no progress" error,
    having polled exactly ten times; and that message differs from every
    message the loop body throws, whatever the accumulated error text or
    the unexpected choice. *)
Theorem rollbackStack_at_most_ten_iterations w options d :
  (count is_lookup (history (snd (rollbackStack w options d)))
   ≤ count is_lookup (history d) + 10)%nat
  ∧ (∀ prepared d1 skip' d',
       truthy_boolean (rs_force options)
         && (0 <? length (nullish (rs_orphanLogicalIds options) []))%nat
         = false →
       rollbackPrepare w options d = (Returns prepared, d1) →
       continuedIterations w options (stackSdk prepared)
         (cloudFormationRoleArn prepared) (stackName (rs_stack options))
         10 (nullish (rs_orphanLogicalIds options) []) d1
         = Some (skip', d') →
       rollbackStack w options d = (Throws no_progress_message, d')
       ∧ count is_lookup (history d')
         = (count is_lookup (history d) + 10)%nat)
  ∧ (∀ stackErrorMessage,
       no_progress_message ≠ iteration_message stackErrorMessage)
  ∧ (∀ rendering,
       no_progress_message ≠ unexpected_choice_message rendering).
Proof.
  assert (Hprep : ∀ d0,
            count is_lookup (history (snd (rollbackPrepare w options d0)))
            = count is_lookup (history d0)).
  { intros d0. apply evolves_count.
    apply stable_rollbackPrepare; by intros []. }
  split; [| split; [| split]].
  - unfold rollbackStack.
    destruct (truthy_boolean (rs_force options) && _); [simpl; lia |].
    rewrite bind_run. specialize (Hprep d).
    destruct (rollbackPrepare w options d) as [[prepared | msg] d1];
      cbn [snd] in Hprep |- *; [| lia].
    pose proof (rollbackLoop_lookups w options (stackSdk prepared)
                  (cloudFormationRoleArn prepared)
                  (stackName (rs_stack options)) 10
                  (nullish (rs_orphanLogicalIds options) []) d1).
    lia.
  - intros prepared d1 skip' d' Hcombine Hprepare Hrun.
    unfold rollbackStack. rewrite Hcombine.
    rewrite (bind_returns _ _ _ _ _ Hprepare).
    destruct (continuedIterations_exhaust _ _ _ _ _ _ _ _ _ _ Hrun)
      as [Hloop Hcount].
    split; [exact Hloop |].
    specialize (Hprep d). rewrite Hprepare in Hprep. simpl in Hprep. lia.
  - apply no_progress_is_not_iteration_message.
  - apply no_progress_is_not_unexpected_choice.
Qed.

Lemma rollbackStack_at_most_ten_iterations_witness :
  ∃ d',
    rollbackStack
      (Sample.world true CONTINUE_UPDATE_ROLLBACK 30 (Some "wait failed"))
      (Sample.rollbackOptions None (Some true) None None)
      Sample.fresh_instance
    = (Throws no_progress_message, d')
    ∧ count is_lookup (history d')
      = (count is_lookup (history Sample.fresh_instance) + 10)%nat.
Proof.
  eexists.
  eapply (proj1 (proj2 (rollbackStack_at_most_ten_iterations
                          (Sample.world true CONTINUE_UPDATE_ROLLBACK 30
                             (Some "wait failed"))
                          (Sample.rollbackOptions None (Some true) None None)
                          Sample.fresh_instance))).
  - reflexivity.
  - vm_compute. reflexivity.
  - vm_compute. reflexivity.
Defined.

(** ** Retrying after a failed wait *)

Lemma suffixWithErrors_truthy message errors :
  message ≠ "" → truthy_string (Some (suffixWithErrors message errors)) = true.
Proof.
  intros Hne. destruct message as [| c message]; [done |].
  by destruct errors as [[| e es] |].
Qed.




Lemma monitoredWait_not_mutating w options cfn name st d :
  count is_mutating (history (snd (monitoredWait w options cfn name st d)))
  = count is_mutating (history d).
Proof.
  apply evolves_count. apply stable_monitoredWait; by intros [].
Qed.







(** ** The bootstrap gate before mutating calls *)

Lemma prepareSdkFor_not_mutating w stack roleArn mode d :
  count is_mutating (history (snd (prepareSdkFor w stack roleArn mode d)))
  = count is_mutating (history d).
Proof.
  apply evolves_count. apply stable_prepareSdkFor; by intros [].
Qed.

(** When the version read is below the required one the gate throws the
    mismatch error prefixed with the stack name, having made the
    [validateVersion] call and the read and nothing else. *)
Lemma validateBootstrapStackVersion_mismatch w name required param er d live :
  w_bootstrapVersion w
    (EvValidateVersion er (Some required) param :: history d) er param
    = Returns live →
  (live < required)%Z →
  validateBootstrapStackVersion w name (Some required) param er d
  = (Throws (name +:+ ": " +:+ w_versionMismatchMessage w required live),
     record (EvBootstrapVersion er param)
       (record (EvValidateVersion er (Some required) param) d)).
Proof.
  intros Hread Hlt.
  unfold validateBootstrapStackVersion, validateVersion.
  cbv [try_catch bind emit call ret throw]. cbn [history record].
  rewrite Hread. apply Z.ltb_lt in Hlt. by rewrite Hlt.
Qed.

(** C4, as amended: [deployStack] throws the version-mismatch error,
    prefixed with the stack name and before any mutating call, whenever the
    version the stack requires exceeds the one the environment reports;
    [rollbackStack] does so whenever the reported version is below 23 and
    the option [validateBootstrapStackVersion] is not [false], whatever the
    stack itself requires.  Both are stated for invocations whose options
    are accepted and whose credentials resolve. *)
Theorem bootstrap_gate_precedes_mutation w :
  (∀ options d prepared d1 required live,
     ds_deploymentMethod options = None
       ∨ (truthy_string (ds_changeSetName options) = false
          ∧ ds_execute options = None) →
     prepareSdkFor w (ds_stack options) (ds_roleArn options) ForWriting d
       = (Returns prepared, d1) →
     requiresBootstrapStackVersion (ds_stack options) = Some required →
     w_bootstrapVersion w
       (EvValidateVersion (envResources prepared) (Some required)
          (bootstrapStackVersionSsmParameter (ds_stack options))
        :: history d1)
       (envResources prepared)
       (bootstrapStackVersionSsmParameter (ds_stack options))
       = Returns live →
     (live < required)%Z →
     ∃ d2,
       deployStack w options d
       = (Throws (stackName (ds_stack options) +:+ ": " +:+
                  w_versionMismatchMessage w required live), d2)
       ∧ count is_mutating (history d2) = count is_mutating (history d))
  ∧ (∀ options d prepared d1 live,
       truthy_boolean (rs_force options)
         && (0 <? length (nullish (rs_orphanLogicalIds options) []))%nat
         = false →
       prepareSdkFor w (rs_stack options) (rs_roleArn options) ForWriting d
         = (Returns prepared, d1) →
       rs_validateBootstrapStackVersion options ≠ Some false →
       w_bootstrapVersion w
         (EvValidateVersion (envResources prepared) (Some 23%Z)
            (bootstrapStackVersionSsmParameter (rs_stack options))
          :: history d1)
         (envResources prepared)
         (bootstrapStackVersionSsmParameter (rs_stack options))
         = Returns live →
       (live < 23)%Z →
       ∃ d2,
         rollbackStack w options d
         = (Throws (stackName (rs_stack options) +:+ ": " +:+
                    w_versionMismatchMessage w 23%Z live), d2)
         ∧ count is_mutating (history d2) = count is_mutating (history d)).
Proof.
  split.
  - intros options d prepared d1 required live Hoptions Hprepare Hrequires
      Hread Hlt.
    pose proof (prepareSdkFor_not_mutating w (ds_stack options)
                  (ds_roleArn options) ForWriting d) as Hcount.
    rewrite Hprepare in Hcount. cbn [snd] in Hcount.
    eexists. split.
    + unfold deployStack. rewrite bind_run.
      assert (Hmethod : ∃ method,
        (if truthy_string (ds_changeSetName options)
            || match ds_execute options with
               | Some _ => true
               | None => false
               end
         then
           match ds_deploymentMethod options with
           | Some _ =>
               throw ("You cannot supply both 'deploymentMethod' and " +:+
                      "'changeSetName/execute'. Supply one or the other.")
           | None =>
               ret (Some {| method := "change-set";
                            dm_changeSetName := ds_changeSetName options;
                            dm_execute := ds_execute options |})
           end
         else ret (ds_deploymentMethod options)) d = (Returns method, d)).
      { destruct Hoptions as [-> | [-> ->]]; [| by eexists].
        destruct (_ || _); by eexists. }
      destruct Hmethod as [chosen ->].
      rewrite (bind_returns _ _ _ _ _ Hprepare). rewrite Hrequires.
      apply bind_throws.
      by apply validateBootstrapStackVersion_mismatch.
    + cbn [history record]. rewrite !count_cons. simpl. exact Hcount.
  - intros options d prepared d1 live Hcombine Hprepare Hvalidate Hread Hlt.
    pose proof (prepareSdkFor_not_mutating w (rs_stack options)
                  (rs_roleArn options) ForWriting d) as Hcount.
    rewrite Hprepare in Hcount. cbn [snd] in Hcount.
    eexists. split.
    + unfold rollbackStack. rewrite Hcombine.
      apply bind_throws. unfold rollbackPrepare.
      rewrite (bind_returns _ _ _ _ _ Hprepare).
      assert (Hgate : nullish (rs_validateBootstrapStackVersion options) true
                      = true)
        by (by destruct (rs_validateBootstrapStackVersion options) as [[] |]).
      rewrite Hgate. apply bind_throws.
      by apply validateBootstrapStackVersion_mismatch.
    + cbn [history record]. rewrite !count_cons. simpl. exact Hcount.
Qed.

Lemma bootstrap_gate_precedes_mutation_witness :
  (∃ message d2,
     deployStack (Sample.world true START_ROLLBACK 3 None)
       (Sample.deployOptions (Some 5%Z)) Sample.fresh_instance
     = (Throws ("Orders: " +:+ message), d2)
     ∧ count is_mutating (history d2) = 0%nat)
  ∧ (∃ message d2,
       rollbackStack (Sample.world true START_ROLLBACK 3 None)
         (Sample.rollbackOptions (Some 5%Z) None None None)
         Sample.fresh_instance
       = (Throws ("Orders: " +:+ message), d2)
       ∧ count is_mutating (history d2) = 0%nat).
Proof.
  split.
  - eexists.
    eapply (proj1 (bootstrap_gate_precedes_mutation
                     (Sample.world true START_ROLLBACK 3 None))
              (Sample.deployOptions (Some 5%Z)) Sample.fresh_instance
              {| stackSdk := 0%nat;
                 resolvedEnvironment := Sample.env;
                 cloudFormationRoleArn :=
                   Some "arn:aws:iam::111122223333:role/cfn-exec";
                 envResources := environmentResources_for Sample.env 0%nat |}
              _ 5%Z 3%Z).
    + left. reflexivity.
    + vm_compute. reflexivity.
    + reflexivity.
    + reflexivity.
    + lia.
  - eexists.
    eapply (proj2 (bootstrap_gate_precedes_mutation
                     (Sample.world true START_ROLLBACK 3 None))
              (Sample.rollbackOptions (Some 5%Z) None None None)
              Sample.fresh_instance
              {| stackSdk := 0%nat;
                 resolvedEnvironment := Sample.env;
                 cloudFormationRoleArn :=
                   Some "arn:aws:iam::111122223333:role/cfn-exec";
                 envResources := environmentResources_for Sample.env 0%nat |}
              _ 3%Z).
    + reflexivity.
    + vm_compute. reflexivity.
    + discriminate.
    + reflexivity.
    + lia.
Defined.

(** C4, as stated, fails for [rollbackStack]: a stack that requires
    bootstrap version 30 in an environment that reports 25 passes the gate
    of [rollbackStack], which checks against 23; the rollback is started
    and reported as a success. *)
Lemma rollbackStack_ignores_stack_requirement :
  requiresBootstrapStackVersion
    (rs_stack (Sample.rollbackOptions (Some 30%Z) None None None))
    = Some 30%Z
  ∧ (∀ h er param,
       w_bootstrapVersion (Sample.world true START_ROLLBACK 25 None) h er param
       = Returns 25%Z)
  ∧ (25 < 30)%Z
  ∧ ∃ d',
      rollbackStack (Sample.world true START_ROLLBACK 25 None)
        (Sample.rollbackOptions (Some 30%Z) None None None)
        Sample.fresh_instance
      = (Returns {| notInRollbackableState := None; success := Some true |},
         d')
      ∧ count is_mutating (history d') = 1%nat.
Proof.
  split; [reflexivity |]. split; [reflexivity |]. split; [lia |].
  eexists. split; [vm_compute; reflexivity | vm_compute; reflexivity].
Qed.

(** ** The lookup-role strategy *)

Lemma lookup_version_message_includes required live :
  includes "Bootstrap stack version" (lookup_version_message required live)
  = true.
Proof. reflexivity. Qed.

(** C7: once the client for the lookup role has been obtained, and the
    role was assumed while the stack's lookup role names a version
    parameter and a version requirement, [prepareSdkWithLookupRoleFor]
    throws the version error when the version read from that parameter is
    below the requirement, and returns the client when it is not.  When the
    role was not assumed it logs a warning and returns the client it was
    given (the default credentials), without throwing. *)
Theorem prepareSdkWithLookupRoleFor_checks_version
    w stack d resolved d0 lookupRoleArn d1 client d2 :
  resolveEnvironment w (environment stack) d = (Returns resolved, d0) →
  replaceEnvPlaceholders1 w resolved (option_map arn (lookupRole stack)) d0
    = (Returns lookupRoleArn, d1) →
  cachedSdkForEnvironment w resolved ForReading
    (Some {| assumeRoleArn := lookupRoleArn;
             assumeRoleExternalId :=
               lookupRole stack ≫= lr_assumeRoleExternalId;
             assumeRoleAdditionalOptions :=
               lookupRole stack ≫= lr_assumeRoleAdditionalOptions |}) d1
    = (Returns client, d2) →
  let er := environmentResources_for resolved (sdk client) in
  let prepared := {| lk_sdk := sdk client;
                     lk_didAssumeRole := didAssumeRole client;
                     lk_resolvedEnvironment := resolved;
                     lk_envResources := er |} in
  (∀ role param required live,
     didAssumeRole client = true →
     lookupRole stack = Some role →
     lr_bootstrapStackVersionSsmParameter role = Some param →
     param ≠ "" →
     lr_requiresBootstrapStackVersion role = Some required →
     required ≠ 0%Z →
     w_bootstrapVersion w (history d2) er (Some param) = Returns live →
     ((live < required)%Z →
      ∃ d3,
        prepareSdkWithLookupRoleFor w stack d
        = (Throws (lookup_version_message required live), d3)
        ∧ EvLog Error (lookup_version_message required live) ∈ history d3)
     ∧ ((required ≤ live)%Z →
        prepareSdkWithLookupRoleFor w stack d
        = (Returns prepared, record (EvBootstrapVersion er (Some param)) d2)))
  ∧ (didAssumeRole client = false →
     prepareSdkWithLookupRoleFor w stack d
     = (Returns prepared,
        record (EvLog Warning
                  (not_assumed_message
                     (match lookupRole stack with
                      | Some _ => true
                      | None => false
                      end))) d2)).
Proof.
  intros Hresolve Hreplace Hclient er prepared. split.
  - intros role param required live Hassumed Hrole Hparam Hparam_ne
      Hrequired Hrequired_ne Hread.
    assert (Hguard : lookupVersionCheckApplies client stack = true).
    { unfold lookupVersionCheckApplies.
      rewrite Hassumed, Hrole. simpl. rewrite Hparam, Hrequired. simpl.
      destruct param; [done |]. simpl.
      by apply negb_true_iff, Z.eqb_neq. }
    split.
    + intros Hlt. apply Z.ltb_lt in Hlt.
      unfold prepareSdkWithLookupRoleFor.
      rewrite (bind_returns _ _ _ _ _ Hresolve).
      rewrite (bind_returns _ _ _ _ _ Hreplace).
      unfold try_catch.
      rewrite (bind_returns _ _ _ _ _ Hclient).
      rewrite Hguard, Hrole. simpl option_bind. cbn [mbind option_bind].
      rewrite Hparam, Hrequired. cbn [nullish].
      unfold versionFromSsmParameter.
      cbv [bind call throw ret debug warning error emit].
      fold er. rewrite Hread, Hlt.
      rewrite lookup_version_message_includes.
      eexists. split; [reflexivity |].
      cbn [history record]. apply list_elem_of_here.
    + intros Hle. apply Z.ltb_ge in Hle.
      unfold prepareSdkWithLookupRoleFor.
      rewrite (bind_returns _ _ _ _ _ Hresolve).
      rewrite (bind_returns _ _ _ _ _ Hreplace).
      unfold try_catch.
      rewrite (bind_returns _ _ _ _ _ Hclient).
      rewrite Hguard, Hrole. cbn [mbind option_bind].
      rewrite Hparam, Hrequired. cbn [nullish].
      unfold versionFromSsmParameter.
      cbv [bind call throw ret debug warning error emit].
      fold er. by rewrite Hread, Hle.
  - intros Hdefault.
    unfold prepareSdkWithLookupRoleFor.
    rewrite (bind_returns _ _ _ _ _ Hresolve).
    rewrite (bind_returns _ _ _ _ _ Hreplace).
    unfold try_catch.
    rewrite (bind_returns _ _ _ _ _ Hclient).
    unfold lookupVersionCheckApplies. rewrite Hdefault.
    cbv [bind call throw ret debug warning error emit andb negb].
    subst prepared er. by rewrite Hdefault.
Qed.

Lemma prepareSdkWithLookupRoleFor_checks_version_witness :
  (∃ d3,
     prepareSdkWithLookupRoleFor (Sample.world true NONE 3 None)
       (Sample.stack (Some 5%Z)) Sample.fresh_instance
     = (Throws (lookup_version_message 5 3), d3)
     ∧ EvLog Error (lookup_version_message 5 3) ∈ history d3)
  ∧ (∃ d3,
       prepareSdkWithLookupRoleFor (Sample.world false NONE 3 None)
         (Sample.stack (Some 5%Z)) Sample.fresh_instance
       = (Returns {| lk_sdk := 0%nat;
                     lk_didAssumeRole := false;
                     lk_resolvedEnvironment := Sample.env;
                     lk_envResources :=
                       environmentResources_for Sample.env 0%nat |}, d3)).
Proof.
  split.
  - edestruct (prepareSdkWithLookupRoleFor_checks_version
                 (Sample.world true NONE 3 None) (Sample.stack (Some 5%Z))
                 Sample.fresh_instance Sample.env) as [Hcheck _].
    + vm_compute. reflexivity.
    + vm_compute. reflexivity.
    + vm_compute. reflexivity.
    + eapply (proj1 (Hcheck (Sample.role (Some 5%Z)) Sample.versionParameter
                       5%Z 3%Z eq_refl eq_refl eq_refl ltac:(discriminate)
                       eq_refl ltac:(discriminate) eq_refl)).
      lia.
  - eexists.
    edestruct (prepareSdkWithLookupRoleFor_checks_version
                 (Sample.world false NONE 3 None) (Sample.stack (Some 5%Z))
                 Sample.fresh_instance Sample.env) as [_ Hdefault].
    + vm_compute. reflexivity.
    + vm_compute. reflexivity.
    + vm_compute. reflexivity.
    + apply Hdefault. reflexivity.
Defined.

(** ** Runs of invocations *)

Lemma invoke_evolves w (P : Event → Prop) i d :
  (∀ e, P e) → evolves P d (invoke w i d).
Proof.
  intros HP. destruct i; cbn [invoke].
  - by apply stable_deployStack.
  - by apply stable_rollbackStack.
  - by apply stable_prepareSdkWithLookupRoleFor.
  - by apply stable_prepareSdkWithLookupOrDeployRole.
  - by apply stable_prepareSdkFor.
  - by apply stable_cachedSdkForEnvironment.
  - by apply stable_buildSingleAsset.
  - by apply stable_publishSingleAsset.
  - by apply stable_isSingleAssetPublished.
Qed.

Lemma run_evolves w (P : Event → Prop) invocations d :
  (∀ e, P e) → evolves P d (run w invocations d).
Proof.
  intros HP. revert d. induction invocations as [| i rest IH]; intros d.
  - apply evolves_refl.
  - cbn [run foldl]. eapply evolves_trans; [by apply invoke_evolves |].
    apply IH.
Qed.

(** ** The credential cache *)

(** A call that returns leaves its result under the key of its inputs. *)
Lemma cachedSdkForEnvironment_stores w env mode options d client d1 :
  cachedSdkForEnvironment w env mode options d = (Returns client, d1) →
  sdkCache d1 !! cacheKey w env mode options = Some client
  ∧ (count is_forEnvironment (history d1)
     ≤ S (count is_forEnvironment (history d)))%nat.
Proof.
  unfold cachedSdkForEnvironment, cachedSdkForEnvironment_start.
  destruct (sdkCache d !! cacheKey w env mode options) as [c |] eqn:Hkey.
  - intros Heq. inversion Heq; subst. split; [done | lia].
  - cbv [cachedSdkForEnvironment_resume bind forEnvironment call fresh
         sdkCache_set ret throw].
    destruct (w_forEnvironment w (history d) env mode options);
      intros Heq; inversion Heq; subst; cbn [sdkCache history record].
    split; [by rewrite lookup_insert_eq |].
    rewrite count_cons. simpl. lia.
Qed.

(** A call whose key is in the cache returns the cached client and leaves
    the instance untouched. *)
Lemma cachedSdkForEnvironment_hit w env mode options d client :
  sdkCache d !! cacheKey w env mode options = Some client →
  cachedSdkForEnvironment w env mode options d = (Returns client, d).
Proof.
  intros Hkey.
  unfold cachedSdkForEnvironment, cachedSdkForEnvironment_start.
  by rewrite Hkey.
Qed.

(** A call that starts when its key is in the cache does not reach the
    [await]: it has the cached client at once. *)
Lemma cachedSdkForEnvironment_start_hit w env mode options d client :
  sdkCache d !! cacheKey w env mode options = Some client →
  cachedSdkForEnvironment_start w env mode options d = (SdkCached client, d).
Proof. intros Hkey. unfold cachedSdkForEnvironment_start. by rewrite Hkey. Qed.

(** C5, as amended: when the operations of an instance run one after the
    other, so that no credential-resolution call is suspended at its
    [await] while another one runs, then after a call has returned a
    client, any later call with the same account, region, mode and
    credentials options, whatever operations ran in between, finds that
    very client in the cache before it would reach the provider, returns
    it and leaves the instance as it found it; the first call itself calls
    the provider at most once.  Equal inputs give equal cache keys. *)
Theorem cachedSdkForEnvironment_reuses_client w env mode options d client d1 :
  cachedSdkForEnvironment w env mode options d = (Returns client, d1) →
  (count is_forEnvironment (history d1)
   ≤ S (count is_forEnvironment (history d)))%nat
  ∧ (∀ invocations env',
       account env' = account env →
       region env' = region env →
       let d2 := run w invocations d1 in
       cacheKey w env' mode options = cacheKey w env mode options
       ∧ cachedSdkForEnvironment w env' mode options d2
         = (Returns client, d2)
       ∧ cachedSdkForEnvironment_start w env' mode options d2
         = (SdkCached client, d2)).
Proof.
  intros Hfirst.
  destruct (cachedSdkForEnvironment_stores _ _ _ _ _ _ _ Hfirst)
    as [Hstored Hcount].
  split; [exact Hcount |].
  intros invocations env' Haccount Hregion d2.
  assert (Hkey : cacheKey w env' mode options = cacheKey w env mode options)
    by (unfold cacheKey; by rewrite Haccount, Hregion).
  split; [exact Hkey |].
  assert (Hcached : sdkCache d2 !! cacheKey w env' mode options = Some client).
  { rewrite Hkey.
    destruct (run_evolves w (λ _, True) invocations d1 ltac:(done))
      as [_ [Hsdk _]].
    by eapply lookup_weaken. }
  split.
  - by apply cachedSdkForEnvironment_hit.
  - by apply cachedSdkForEnvironment_start_hit.
Qed.

Lemma cachedSdkForEnvironment_reuses_client_witness :
  cachedSdkForEnvironment (Sample.world true NONE 30 None) Sample.env
    ForWriting None
    (run (Sample.world true NONE 30 None)
       [InvRollbackStack (Sample.rollbackOptions None None None None);
        InvPrepareSdkWithLookupRoleFor (Sample.stack None)]
       (snd (cachedSdkForEnvironment (Sample.world true NONE 30 None)
               Sample.env ForWriting None Sample.fresh_instance)))
  = (Returns {| sdk := 0%nat; didAssumeRole := true |},
     run (Sample.world true NONE 30 None)
       [InvRollbackStack (Sample.rollbackOptions None None None None);
        InvPrepareSdkWithLookupRoleFor (Sample.stack None)]
       (snd (cachedSdkForEnvironment (Sample.world true NONE 30 None)
               Sample.env ForWriting None Sample.fresh_instance))).
Proof.
  apply (proj1 (proj2 (proj2 (cachedSdkForEnvironment_reuses_client
                  (Sample.world true NONE 30 None) Sample.env ForWriting None
                  Sample.fresh_instance
                  {| sdk := 0%nat; didAssumeRole := true |}
                  (snd (cachedSdkForEnvironment
                          (Sample.world true NONE 30 None)
                          Sample.env ForWriting None Sample.fresh_instance))
                  ltac:(vm_compute; reflexivity))
           [InvRollbackStack (Sample.rollbackOptions None None None None);
            InvPrepareSdkWithLookupRoleFor (Sample.stack None)]
           Sample.env eq_refl eq_refl))).
Defined.

(** C5 as the specification states it does not hold of calls that
    overlap: [cachedSdkForEnvironment] reads the cache (line 885), awaits
    the provider (line 889) and only then writes the cache (line 890).
    Two calls with the same environment, mode and options, the second
    started while the first is suspended at its [await], both miss the
    cache: the provider is called twice and the two calls return
    different clients; the cache keeps the client of the call that
    resumed last. *)
Lemma cachedSdkForEnvironment_overlapping_calls_differ :
  ∃ d',
    cachedSdkForEnvironment_overlapping (Sample.world true NONE 30 None)
      Sample.env ForWriting None Sample.env ForWriting None
      Sample.fresh_instance
    = (Returns {| sdk := 0%nat; didAssumeRole := true |},
       Returns {| sdk := 1%nat; didAssumeRole := true |}, d')
    ∧ count is_forEnvironment (history d') = 2%nat
    ∧ sdkCache d' !! cacheKey (Sample.world true NONE 30 None) Sample.env
                       ForWriting None
      = Some {| sdk := 1%nat; didAssumeRole := true |}.
Proof.
  eexists. split; [vm_compute; reflexivity |].
  split; [vm_compute; reflexivity |].
  vm_compute. reflexivity.
Qed.

(** ** The publisher cache *)





















(** * Further properties of the façade *)

(** ** Stacks without an environment, ambiguous options *)

(** The deployment method [deployStack] hands on: the legacy options, when
    one is given, become a change-set method. *)
Lemma deployStack_method options :
  ds_deploymentMethod options = None
    ∨ (truthy_string (ds_changeSetName options) = false
       ∧ ds_execute options = None) →
  ∃ chosen,
    (∀ d,
       (if truthy_string (ds_changeSetName options)
           || match ds_execute options with
              | Some _ => true
              | None => false
              end
        then
          match ds_deploymentMethod options with
          | Some _ =>
              throw ("You cannot supply both 'deploymentMethod' and " +:+
                     "'changeSetName/execute'. Supply one or the other.")
          | None =>
              ret (Some {| method := "change-set";
                           dm_changeSetName := ds_changeSetName options;
                           dm_execute := ds_execute options |})
          end
        else ret (ds_deploymentMethod options)) d = (Returns chosen, d))
    ∧ (truthy_string (ds_changeSetName options) = true
         ∨ ds_execute options ≠ None →
       chosen = Some {| method := "change-set";
                        dm_changeSetName := ds_changeSetName options;
                        dm_execute := ds_execute options |})
    ∧ (truthy_string (ds_changeSetName options) = false →
       ds_execute options = None →
       chosen = ds_deploymentMethod options).
Proof.
  intros Hoptions.
  destruct (truthy_string (ds_changeSetName options)) eqn:Hname;
    destruct (ds_execute options) as [execute |] eqn:Hexecute; simpl.
  1-3: destruct Hoptions as [Hmethod | [? ?]]; try done; rewrite Hmethod;
       eexists; (split; [reflexivity |]); split; [done | intros; done].
  eexists. split; [reflexivity |]. split; [intros [? | ?]; done | done].
Qed.

(** X1: a stack that carries no environment is rejected by
    [prepareSdkFor] with "The stack ... does not have an environment", and
    so are [deployStack] and [rollbackStack] on it for every set of
    options that their own checks accept: for [deployStack], a
    [deploymentMethod] or the legacy [changeSetName] / [execute] options
    but not both; for [rollbackStack], anything but [force] together with
    a non-empty orphan list.  In each case the instance is left exactly
    as it was, so no collaborator was called. *)
Theorem stack_without_environment_rejected w stack :
  environment stack = None →
  let message :=
    "The stack " +:+ displayName stack +:+ " does not have an environment" in
  (∀ roleArn mode d,
     prepareSdkFor w stack roleArn mode d = (Throws message, d))
  ∧ (∀ options d,
       ds_stack options = stack →
       ds_deploymentMethod options = None
         ∨ (truthy_string (ds_changeSetName options) = false
            ∧ ds_execute options = None) →
       deployStack w options d = (Throws message, d))
  ∧ (∀ options d,
       rs_stack options = stack →
       truthy_boolean (rs_force options)
       && (0 <? length (nullish (rs_orphanLogicalIds options) []))%nat
       = false →
       rollbackStack w options d = (Throws message, d)).
Proof.
  intros Henv message.
  assert (Hprepare : ∀ roleArn mode d,
            prepareSdkFor w stack roleArn mode d = (Throws message, d)).
  { intros roleArn mode d. unfold prepareSdkFor. by rewrite Henv. }
  split; [exact Hprepare |]. split.
  - intros options d Hstack Hoptions. unfold deployStack.
    destruct (deployStack_method options Hoptions) as [chosen [Hchosen _]].
    rewrite bind_run, Hchosen.
    apply bind_throws. rewrite Hstack. apply Hprepare.
  - intros options d Hstack Haccepted. unfold rollbackStack.
    rewrite Haccepted. apply bind_throws.
    unfold rollbackPrepare. apply bind_throws.
    rewrite Hstack. apply Hprepare.
Qed.

(** X2: [deployStack] given both a [deploymentMethod] and one of the
    legacy [changeSetName] / [execute] options throws before anything else
    happens: the instance is left exactly as it was. *)
Theorem deployStack_rejects_two_methods w options d chosen :
  ds_deploymentMethod options = Some chosen →
  truthy_string (ds_changeSetName options) = true
    ∨ ds_execute options ≠ None →
  deployStack w options d
  = (Throws ("You cannot supply both 'deploymentMethod' and " +:+
             "'changeSetName/execute'. Supply one or the other."), d).
Proof.
  intros Hmethod Hlegacy. unfold deployStack. rewrite Hmethod.
  apply bind_throws.
  destruct Hlegacy as [-> | Hexecute]; [done |].
  destruct (ds_execute options); [| done].
  by rewrite orb_true_r.
Qed.

(** X3: when the options are accepted, the credentials resolve and the
    bootstrap gate lets the stack through, [deployStack] makes exactly one
    call to the external deployment, after the gate, with the client,
    environment and execution role that were resolved, and returns what
    that call returns.  A legacy [changeSetName] or [execute] option is
    handed on as a change-set deployment method; otherwise the given
    method is handed on unchanged. *)
Theorem deployStack_delegates_after_gate w options d prepared d1 d2 :
  ds_deploymentMethod options = None
    ∨ (truthy_string (ds_changeSetName options) = false
       ∧ ds_execute options = None) →
  prepareSdkFor w (ds_stack options) (ds_roleArn options) ForWriting d
    = (Returns prepared, d1) →
  validateBootstrapStackVersion w (stackName (ds_stack options))
    (requiresBootstrapStackVersion (ds_stack options))
    (bootstrapStackVersionSsmParameter (ds_stack options))
    (envResources prepared) d1 = (Returns tt, d2) →
  ∃ args,
    deployStack w options d
    = (w_deployStack w (history d2) args, record (EvDeployStack args) d2)
    ∧ da_stack args = ds_stack options
    ∧ da_sdk args = stackSdk prepared
    ∧ da_resolvedEnvironment args = resolvedEnvironment prepared
    ∧ da_roleArn args = cloudFormationRoleArn prepared
    ∧ da_envResources args = envResources prepared
    ∧ (truthy_string (ds_changeSetName options) = true
         ∨ ds_execute options ≠ None →
       da_deploymentMethod args
       = Some {| method := "change-set";
                 dm_changeSetName := ds_changeSetName options;
                 dm_execute := ds_execute options |})
    ∧ (truthy_string (ds_changeSetName options) = false →
       ds_execute options = None →
       da_deploymentMethod args = ds_deploymentMethod options)
    ∧ count is_mutating (history (record (EvDeployStack args) d2))
      = S (count is_mutating (history d)).
Proof.
  intros Hoptions Hprepare Hgate.
  destruct (deployStack_method options Hoptions)
    as [chosen [Hchosen [Hlegacy Hplain]]].
  eexists. split.
  - unfold deployStack. rewrite bind_run, Hchosen.
    rewrite (bind_returns _ _ _ _ _ Hprepare).
    rewrite (bind_returns _ _ _ _ _ Hgate). reflexivity.
  - cbn [da_stack da_sdk da_resolvedEnvironment da_roleArn da_envResources
         da_deploymentMethod].
    repeat (split; [done |]).
    cbn [history record]. rewrite count_cons. cbn [is_mutating].
    pose proof (prepareSdkFor_not_mutating w (ds_stack options)
                  (ds_roleArn options) ForWriting d) as Hcred.
    rewrite Hprepare in Hcred. cbn [snd] in Hcred.
    assert (Hgated :
      count is_mutating
        (history (snd (validateBootstrapStackVersion w
                         (stackName (ds_stack options))
                         (requiresBootstrapStackVersion (ds_stack options))
                         (bootstrapStackVersionSsmParameter (ds_stack options))
                         (envResources prepared) d1)))
      = count is_mutating (history d1)).
    { apply evolves_count.
      apply stable_validateBootstrapStackVersion; by intros []. }
    rewrite Hgate in Hgated. cbn [snd] in Hgated. lia.
Qed.

(** ** The gate and the credential cache on failure *)

(** Whatever goes wrong inside the version check, the error that
    [validateBootstrapStackVersion] throws is the original message prefixed
    with the stack name and a colon; when the check returns, the gate
    returns. *)
Lemma validateBootstrapStackVersion_prefixes_errors
    w name requires param er d :
  match validateVersion w er requires param d with
  | (Returns tt, d') =>
      validateBootstrapStackVersion w name requires param er d
      = (Returns tt, d')
  | (Throws message, d') =>
      validateBootstrapStackVersion w name requires param er d
      = (Throws (name +:+ ": " +:+ message), d')
  end.
Proof.
  unfold validateBootstrapStackVersion, try_catch.
  by destruct (validateVersion w er requires param d) as [[[] | message] d'].
Qed.


(** ** The lookup role *)

(** X5: when the client for the lookup role cannot be obtained,
    [prepareSdkWithLookupRoleFor] rethrows the very same error after
    logging it at debug level, warning "Could not assume ..., proceeding
    anyway." only when the stack declares a lookup role, and repeating the
    message at error level only when it mentions the bootstrap stack
    version. *)
Theorem prepareSdkWithLookupRoleFor_rethrows
    w stack d resolved d0 lookupRoleArn d1 message d2 :
  resolveEnvironment w (environment stack) d = (Returns resolved, d0) →
  replaceEnvPlaceholders1 w resolved (option_map arn (lookupRole stack)) d0
    = (Returns lookupRoleArn, d1) →
  cachedSdkForEnvironment w resolved ForReading
    (Some {| assumeRoleArn := lookupRoleArn;
             assumeRoleExternalId :=
               lookupRole stack ≫= lr_assumeRoleExternalId;
             assumeRoleAdditionalOptions :=
               lookupRole stack ≫= lr_assumeRoleAdditionalOptions |}) d1
    = (Throws message, d2) →
  ∃ d3,
    prepareSdkWithLookupRoleFor w stack d = (Throws message, d3)
    ∧ history d3
      = (if includes "Bootstrap stack version" message
         then [EvLog Error message]
         else [])
        ++ match lookupRole stack with
           | Some _ =>
               [EvLog Warning
                  ("Could not assume " +:+ render_optional lookupRoleArn +:+
                   ", proceeding anyway.")]
           | None => []
           end
        ++ EvLog Debug message :: history d2.
Proof.
  intros Hresolve Hreplace Hclient.
  unfold prepareSdkWithLookupRoleFor.
  rewrite (bind_returns _ _ _ _ _ Hresolve).
  rewrite (bind_returns _ _ _ _ _ Hreplace).
  unfold try_catch. rewrite (bind_throws _ _ _ _ _ Hclient).
  cbv [bind debug warning error emit ret throw].
  destruct (lookupRole stack);
    destruct (includes "Bootstrap stack version" message);
    by eexists.
Qed.

(** X6: [prepareSdkWithLookupOrDeployRole] uses the lookup role only when
    it was really assumed.  When the attempt returns an assumed role, its
    client is the result and no execution role is handed on; when it
    returns default credentials, or throws for whatever reason, the error
    is dropped and the result is that of [prepareSdkFor] for reading, run
    on the state the attempt left behind, so an error it throws is one of
    the deploy-role path.  Either way it makes no mutating call and never
    consults the bootstrap gate. *)
Theorem prepareSdkWithLookupOrDeployRole_falls_back w stack d :
  match prepareSdkWithLookupRoleFor w stack d with
  | (Returns result, d1) =>
      if lk_didAssumeRole result
      then prepareSdkWithLookupOrDeployRole w stack d
           = (Returns {| stackSdk := lk_sdk result;
                         resolvedEnvironment := lk_resolvedEnvironment result;
                         cloudFormationRoleArn := None;
                         envResources := lk_envResources result |}, d1)
      else prepareSdkWithLookupOrDeployRole w stack d
           = prepareSdkFor w stack None ForReading d1
  | (Throws _, d1) =>
      prepareSdkWithLookupOrDeployRole w stack d
      = prepareSdkFor w stack None ForReading d1
  end
  ∧ (∀ message d',
       prepareSdkWithLookupOrDeployRole w stack d = (Throws message, d') →
       prepareSdkFor w stack None ForReading
         (snd (prepareSdkWithLookupRoleFor w stack d))
       = (Throws message, d'))
  ∧ count is_mutating
      (history (snd (prepareSdkWithLookupOrDeployRole w stack d)))
    = count is_mutating (history d)
  ∧ count is_validateVersion
      (history (snd (prepareSdkWithLookupOrDeployRole w stack d)))
    = count is_validateVersion (history d).
Proof.
  assert (Hshape :
    match prepareSdkWithLookupRoleFor w stack d with
    | (Returns result, d1) =>
        if lk_didAssumeRole result
        then prepareSdkWithLookupOrDeployRole w stack d
             = (Returns {| stackSdk := lk_sdk result;
                           resolvedEnvironment :=
                             lk_resolvedEnvironment result;
                           cloudFormationRoleArn := None;
                           envResources := lk_envResources result |}, d1)
        else prepareSdkWithLookupOrDeployRole w stack d
             = prepareSdkFor w stack None ForReading d1
    | (Throws _, d1) =>
        prepareSdkWithLookupOrDeployRole w stack d
        = prepareSdkFor w stack None ForReading d1
    end).
  { destruct (prepareSdkWithLookupRoleFor w stack d)
      as [[result | msg] d1] eqn:Hattempt.
    - assert (Hrun : prepareSdkWithLookupOrDeployRole w stack d
                     = if lk_didAssumeRole result
                       then (Returns
                               {| stackSdk := lk_sdk result;
                                  resolvedEnvironment :=
                                    lk_resolvedEnvironment result;
                                  cloudFormationRoleArn := None;
                                  envResources := lk_envResources result |},
                             d1)
                       else prepareSdkFor w stack None ForReading d1).
      { unfold prepareSdkWithLookupOrDeployRole. cbv [bind try_catch ret].
        rewrite Hattempt. by destruct (lk_didAssumeRole result). }
      by destruct (lk_didAssumeRole result).
    - unfold prepareSdkWithLookupOrDeployRole. cbv [bind try_catch ret].
      by rewrite Hattempt. }
  split; [exact Hshape |]. split; [| split].
  - intros message d' Hthrows.
    destruct (prepareSdkWithLookupRoleFor w stack d) as [[result | msg] d1];
      cbn [snd]; [| congruence].
    destruct (lk_didAssumeRole result); congruence.
  - apply evolves_count.
    apply stable_prepareSdkWithLookupOrDeployRole; by intros [].
  - apply evolves_count.
    apply stable_prepareSdkWithLookupOrDeployRole; by intros [].
Qed.

(** ** The calls of the rollback loop *)

Ltac solve_loop_event :=
  cbn;
  first [ done
        | repeat split; try done; intros; first [congruence | by auto] ].

Ltac evolve_records :=
  repeat first
    [ apply evolves_refl
    | eapply evolves_trans; [| apply evolves_record; solve_loop_event] ].

(** The [switch]: what it adds to the history, and how many mutating
    calls it makes. *)
Lemma rollbackSwitch_shape w options cfn roleArn st skip d :
  (truthy_boolean (rs_force options) = false →
   skip = nullish (rs_orphanLogicalIds options) []) →
  evolves (rollbackLoopEvent options cfn roleArn) d
    (snd (rollbackSwitch w options cfn roleArn (stackName (rs_stack options))
            st skip d))
  ∧ match fst (rollbackSwitch w options cfn roleArn
                 (stackName (rs_stack options)) st skip d) with
    | Returns (Break skip') =>
        count is_mutating
          (history (snd (rollbackSwitch w options cfn roleArn
                           (stackName (rs_stack options)) st skip d)))
        = S (count is_mutating (history d))
        ∧ (truthy_boolean (rs_force options) = false →
           skip' = nullish (rs_orphanLogicalIds options) [])
    | Returns (ReturnFromSwitch result) =>
        count is_mutating
          (history (snd (rollbackSwitch w options cfn roleArn
                           (stackName (rs_stack options)) st skip d)))
        = count is_mutating (history d)
        ∧ result = {| notInRollbackableState := Some true; success := None |}
    | Throws _ =>
        (count is_mutating
           (history (snd (rollbackSwitch w options cfn roleArn
                            (stackName (rs_stack options)) st skip d)))
         ≤ S (count is_mutating (history d)))%nat
    end.
Proof.
  intros Hskip. unfold rollbackSwitch.
  destruct (rollbackChoice (stackStatus st)) as [| | | | rendering];
    cbv [bind call warning debug emit ret throw]; cbn [fst snd].
  - split; [evolve_records |].
    cbn [history record]. by rewrite count_cons.
  - destruct (w_rollbackStack w _ _) as [[] | msg]; cbn [fst snd];
      (split; [evolve_records |]);
      cbn [history record]; rewrite !count_cons; cbn [is_mutating];
      [split; [lia | by auto] | lia].
  - destruct (truthy_boolean (rs_force options)) eqn:Hforce.
    + destruct (w_poll w _ _ _) as [resourceErrors | msg]; cbn [fst snd].
      * destruct (w_continueUpdateRollback w _ _) as [[] | msg];
          cbn [fst snd]; (split; [evolve_records |]);
          cbn [history record]; rewrite !count_cons; cbn [is_mutating];
          [split; [lia | by auto] | lia].
      * split; [evolve_records |].
        cbn [history record]. rewrite !count_cons. cbn [is_mutating]. lia.
    + destruct (w_continueUpdateRollback w _ _) as [[] | msg];
        cbn [fst snd]; (split; [evolve_records |]);
        cbn [history record]; rewrite !count_cons; cbn [is_mutating];
        [split; [lia | by auto] | lia].
  - split; [evolve_records |].
    cbn [history record]. by rewrite count_cons.
  - split; [evolve_records | lia].
Qed.

Lemma monitoredWait_loop_events w options cfn roleArn client name st :
  stable (rollbackLoopEvent options cfn roleArn)
    (monitoredWait w options client name st).
Proof.
  unfold monitoredWait, monitor_errors.
  repeat first
    [ apply stable_ret
    | apply stable_throw
    | apply stable_read
    | apply stable_call; exact I
    | apply stable_emit; exact I
    | apply stable_bind; [| intros ?]
    | apply stable_try_catch; [| intros ?]
    | case_match ].
Qed.

(** One pass through the loop body: what it adds to the history, how many
    mutating calls it makes, and how it can end. *)
Lemma rollbackIteration_shape w options cfn roleArn skip d :
  (truthy_boolean (rs_force options) = false →
   skip = nullish (rs_orphanLogicalIds options) []) →
  evolves (rollbackLoopEvent options cfn roleArn) d
    (snd (rollbackIteration w options cfn roleArn
            (stackName (rs_stack options)) skip d))
  ∧ match rollbackIteration w options cfn roleArn
            (stackName (rs_stack options)) skip d with
    | (Returns (Continue _), d') =>
        truthy_boolean (rs_force options) = true
        ∧ count is_mutating (history d') = S (count is_mutating (history d))
    | (Returns (Return result), d') =>
        (result = {| notInRollbackableState := Some true; success := None |}
         ∧ count is_mutating (history d') = count is_mutating (history d))
        ∨ (result = {| notInRollbackableState := None; success := Some true |}
           ∧ count is_mutating (history d')
             = S (count is_mutating (history d)))
    | (Throws _, d') =>
        (count is_mutating (history d')
         ≤ S (count is_mutating (history d)))%nat
    end.
Proof.
  intros Hskip.
  remember (rollbackIteration w options cfn roleArn
              (stackName (rs_stack options)) skip d) as r eqn:Hr.
  unfold rollbackIteration in Hr. rewrite bind_run in Hr. unfold call in Hr.
  destruct (w_lookup w (history d) (stackName (rs_stack options)))
    as [st | msg].
  2:{ subst r. cbn [snd]. split; [evolve_records |].
      cbn [history record]. rewrite count_cons. cbn [is_mutating]. lia. }
  rewrite bind_run in Hr.
  destruct (rollbackSwitch_shape w options cfn roleArn st skip
              (record (EvLookup cfn (stackName (rs_stack options))) d) Hskip)
    as [Hswitch Hcalls].
  assert (Hlookup : evolves (rollbackLoopEvent options cfn roleArn) d
                      (record (EvLookup cfn (stackName (rs_stack options))) d))
    by evolve_records.
  cbn [history record] in Hcalls. rewrite count_cons in Hcalls.
  cbn [is_mutating] in Hcalls.
  destruct (rollbackSwitch w options cfn roleArn
              (stackName (rs_stack options)) st skip
              (record (EvLookup cfn (stackName (rs_stack options))) d))
    as [[[skip' | result] | msg] d1]; cbn [fst snd] in Hswitch, Hcalls.
  - rewrite bind_run in Hr.
    pose proof (monitoredWait_loop_events w options cfn roleArn cfn
                  (stackName (rs_stack options)) st d1) as Hwait.
    pose proof (monitoredWait_not_mutating w options cfn
                  (stackName (rs_stack options)) st d1) as Hquiet.
    destruct (monitoredWait w options cfn (stackName (rs_stack options))
                st d1) as [[waited | msg] d2]; cbn [snd] in Hwait, Hquiet.
    + unfold afterWait in Hr. cbv [ret throw] in Hr.
      destruct (isRollbackSuccess _ || negb _).
      * subst r. cbn [snd].
        split; [eauto using evolves_trans |]. right. split; [done | lia].
      * destruct (is_continue_update_rollback _); cbn [andb] in Hr.
        -- destruct (truthy_boolean (rs_force options)) eqn:Hforce;
             subst r; cbn [snd]; (split; [eauto using evolves_trans |]);
             [split; [done | lia] | lia].
        -- subst r. cbn [snd]. split; [eauto using evolves_trans | lia].
    + subst r. cbn [snd]. split; [eauto using evolves_trans | lia].
  - cbv [ret] in Hr. subst r. cbn [snd]. destruct Hcalls as [Hcount ->].
    split; [eauto using evolves_trans |]. left. split; [done | lia].
  - subst r. cbn [snd]. split; [eauto using evolves_trans | lia].
Qed.

Lemma rollbackLoop_shape w options cfn roleArn maxLoops :
  ∀ skip d,
    (truthy_boolean (rs_force options) = false →
     skip = nullish (rs_orphanLogicalIds options) []) →
    evolves (rollbackLoopEvent options cfn roleArn) d
      (snd (rollbackLoop w options cfn roleArn
              (stackName (rs_stack options)) maxLoops skip d))
    ∧ (count is_mutating
         (history (snd (rollbackLoop w options cfn roleArn
                          (stackName (rs_stack options)) maxLoops skip d)))
       + count is_lookup (history d)
       ≤ count is_lookup
           (history (snd (rollbackLoop w options cfn roleArn
                            (stackName (rs_stack options)) maxLoops skip d)))
         + count is_mutating (history d))%nat
    ∧ (truthy_boolean (rs_force options) = false →
       (count is_lookup
          (history (snd (rollbackLoop w options cfn roleArn
                           (stackName (rs_stack options)) maxLoops skip d)))
        ≤ S (count is_lookup (history d)))%nat)
    ∧ match rollbackLoop w options cfn roleArn
              (stackName (rs_stack options)) maxLoops skip d with
      | (Returns result, d') =>
          (result = {| notInRollbackableState := Some true; success := None |})
          ∨ (result = {| notInRollbackableState := None;
                         success := Some true |}
             ∧ (count is_mutating (history d)
                < count is_mutating (history d'))%nat)
      | (Throws _, _) => True
      end.
Proof.
  induction maxLoops as [| n IH]; intros skip d Hskip; cbn [rollbackLoop].
  - cbv [throw]. cbn [snd]. split; [apply evolves_refl |].
    split; [lia |]. split; [lia | done].
  - rewrite bind_run.
    destruct (rollbackIteration_shape w options cfn roleArn skip d Hskip)
      as [Hevents Hend].
    pose proof (rollbackIteration_one_lookup w options cfn roleArn
                  (stackName (rs_stack options)) skip d) as Hone.
    destruct (rollbackIteration w options cfn roleArn
                (stackName (rs_stack options)) skip d)
      as [[[skip' | result] | msg] d1]; cbn [snd] in Hevents, Hend, Hone |- *.
    + destruct Hend as [Hforce Hcount].
      destruct (IH skip' d1 ltac:(intros; congruence))
        as [Hrest [Hbound [Hsingle Hresult]]].
      split; [eauto using evolves_trans |].
      split; [lia |]. split; [intros; congruence |].
      destruct (rollbackLoop w options cfn roleArn
                  (stackName (rs_stack options)) n skip' d1)
        as [[result | msg] d2]; [| done].
      destruct Hresult as [-> | [-> Hmore]]; [by left |].
      right. split; [done |]. cbn [snd] in *. lia.
    + cbv [ret]. cbn [snd]. split; [done |].
      split; [destruct Hend as [[_ ?] | [_ ?]]; lia |].
      split; [intros; lia |].
      destruct Hend as [[-> _] | [-> ?]]; [by left |].
      right. split; [done | lia].
    + split; [done |]. split; [lia |]. split; [intros; lia | done].
Qed.

(** X7: once credentials and gate have succeeded, every call the loop of
    [rollbackStack] makes is well formed: each rollback initiation and each
    continuation goes to the client that was resolved, names the stack of
    the options and carries the resolved execution role; each initiation
    asks to retain resources except on create; without [force], each
    continuation skips exactly the orphan list of the options and the event
    history is never polled; and no deployment is ever started. *)
Theorem rollbackStack_calls_well_formed w options d prepared d1 :
  truthy_boolean (rs_force options)
    && (0 <? length (nullish (rs_orphanLogicalIds options) []))%nat = false →
  rollbackPrepare w options d = (Returns prepared, d1) →
  ∃ new,
    history (snd (rollbackStack w options d)) = new ++ history d1
    ∧ (∀ c input,
         EvRollbackStack c input ∈ new →
         c = stackSdk prepared
         ∧ rb_StackName input = stackName (rs_stack options)
         ∧ rb_RoleARN input = cloudFormationRoleArn prepared
         ∧ rb_RetainExceptOnCreate input = true)
    ∧ (∀ c input,
         EvContinueUpdateRollback c input ∈ new →
         c = stackSdk prepared
         ∧ cur_StackName input = stackName (rs_stack options)
         ∧ cur_RoleARN input = cloudFormationRoleArn prepared
         ∧ (rs_force options ≠ Some true →
            cur_ResourcesToSkip input
            = nullish (rs_orphanLogicalIds options) []))
    ∧ (∀ c name statuses,
         EvPoll c name statuses ∈ new → rs_force options = Some true)
    ∧ (∀ args, EvDeployStack args ∉ new).
Proof.
  intros Hcombine Hprepare.
  destruct (rollbackLoop_shape w options (stackSdk prepared)
              (cloudFormationRoleArn prepared) 10
              (nullish (rs_orphanLogicalIds options) []) d1 ltac:(done))
    as [[[new [Hnew Hall]] _] _].
  exists new. split.
  { unfold rollbackStack. rewrite Hcombine.
    by rewrite (bind_returns _ _ _ _ _ Hprepare). }
  rewrite Forall_forall in Hall.
  assert (Hunforced : rs_force options ≠ Some true →
                      truthy_boolean (rs_force options) = false)
    by (by destruct (rs_force options) as [[] |]).
  assert (Hforced : truthy_boolean (rs_force options) = true →
                    rs_force options = Some true)
    by (by destruct (rs_force options) as [[] |]).
  split; [| split; [| split]].
  - intros c input Hin. exact (Hall _ Hin).
  - intros c input Hin. destruct (Hall _ Hin) as [? [? [? Hskip]]].
    repeat (split; [done |]). intros Hne. by apply Hskip, Hunforced.
  - intros c name statuses Hin. exact (Hforced (Hall _ Hin)).
  - intros args Hin. exact (Hall _ Hin).
Qed.

(** X8: without [force] there is no retry: whatever the control plane
    answers, [rollbackStack] polls the stack at most once and makes at most
    one mutating call. *)
Theorem rollbackStack_without_force_single_pass w options d :
  rs_force options ≠ Some true →
  (count is_lookup (history (snd (rollbackStack w options d)))
   ≤ S (count is_lookup (history d)))%nat
  ∧ (count is_mutating (history (snd (rollbackStack w options d)))
     ≤ S (count is_mutating (history d)))%nat.
Proof.
  intros Hforce.
  assert (Hunforced : truthy_boolean (rs_force options) = false)
    by (by destruct (rs_force options) as [[] |]).
  unfold rollbackStack. rewrite Hunforced. cbn [andb]. rewrite bind_run.
  pose proof (rollbackPrepare_not_mutating w options d) as Hmutating.
  assert (Hlookups :
            count is_lookup (history (snd (rollbackPrepare w options d)))
            = count is_lookup (history d)).
  { apply evolves_count. apply stable_rollbackPrepare; by intros []. }
  destruct (rollbackPrepare w options d) as [[prepared | msg] d1];
    cbn [snd] in Hmutating, Hlookups |- *; [| lia].
  destruct (rollbackLoop_shape w options (stackSdk prepared)
              (cloudFormationRoleArn prepared) 10
              (nullish (rs_orphanLogicalIds options) []) d1 ltac:(done))
    as [_ [Hbound [Hsingle _]]].
  specialize (Hsingle Hunforced). lia.
Qed.

(** The loop polls at most ten times. *)
Lemma rollbackStack_at_most_ten_lookups w options d :
  (count is_lookup (history (snd (rollbackStack w options d)))
   ≤ count is_lookup (history d) + 10)%nat.
Proof.
  unfold rollbackStack.
  destruct (truthy_boolean (rs_force options) && _); [simpl; lia |].
  rewrite bind_run.
  assert (Hprep :
            count is_lookup (history (snd (rollbackPrepare w options d)))
            = count is_lookup (history d)).
  { apply evolves_count. apply stable_rollbackPrepare; by intros []. }
  destruct (rollbackPrepare w options d) as [[prepared | msg] d1];
    cbn [snd] in Hprep |- *; [| lia].
  pose proof (rollbackLoop_lookups w options (stackSdk prepared)
                (cloudFormationRoleArn prepared)
                (stackName (rs_stack options)) 10
                (nullish (rs_orphanLogicalIds options) []) d1).
  lia.
Qed.

(** X9: [rollbackStack] never makes more mutating calls than polls, hence
    at most ten; when it returns, the result is either
    [{notInRollbackableState: true}] or [{success: true}], and success is
    only ever reported after at least one rollback or continue call has
    been made. *)
Theorem rollbackStack_outcomes w options d :
  (count is_mutating (history (snd (rollbackStack w options d)))
   + count is_lookup (history d)
   ≤ count is_lookup (history (snd (rollbackStack w options d)))
     + count is_mutating (history d))%nat
  ∧ (count is_mutating (history (snd (rollbackStack w options d)))
     ≤ count is_mutating (history d) + 10)%nat
  ∧ (∀ result d',
       rollbackStack w options d = (Returns result, d') →
       result = {| notInRollbackableState := Some true; success := None |}
       ∨ (result = {| notInRollbackableState := None; success := Some true |}
          ∧ (count is_mutating (history d)
             < count is_mutating (history d'))%nat)).
Proof.
  assert (Hmain :
    (count is_mutating (history (snd (rollbackStack w options d)))
     + count is_lookup (history d)
     ≤ count is_lookup (history (snd (rollbackStack w options d)))
       + count is_mutating (history d))%nat
    ∧ (∀ result d',
         rollbackStack w options d = (Returns result, d') →
         result = {| notInRollbackableState := Some true; success := None |}
         ∨ (result = {| notInRollbackableState := None;
                        success := Some true |}
            ∧ (count is_mutating (history d)
               < count is_mutating (history d'))%nat))).
  { unfold rollbackStack.
    destruct (truthy_boolean (rs_force options) && _);
      [split; [cbn; lia | intros ?? [=]] |].
    rewrite bind_run.
    pose proof (rollbackPrepare_not_mutating w options d) as Hmutating.
    assert (Hlookups :
              count is_lookup (history (snd (rollbackPrepare w options d)))
              = count is_lookup (history d)).
    { apply evolves_count. apply stable_rollbackPrepare; by intros []. }
    destruct (rollbackPrepare w options d) as [[prepared | msg] d1];
      cbn [snd] in Hmutating, Hlookups |- *;
      [| split; [lia | intros ?? [=]]].
    destruct (rollbackLoop_shape w options (stackSdk prepared)
                (cloudFormationRoleArn prepared) 10
                (nullish (rs_orphanLogicalIds options) []) d1 ltac:(done))
      as [_ [Hbound [_ Hresult]]].
    split; [lia |]. intros result d' Hrun. rewrite Hrun in Hresult.
    destruct Hresult as [-> | [-> Hmore]]; [by left |].
    right. split; [done | lia]. }
  destruct Hmain as [Hbound Hresult].
  split; [exact Hbound |]. split; [| exact Hresult].
  pose proof (rollbackStack_at_most_ten_lookups w options d). lia.
Qed.

(** ** Starting a rollback, unexpected states *)



(** X11: a rollback choice outside the four known ones is fatal at once:
    [rollbackStack] throws "Unexpected rollback choice: ..." right after
    the poll, without any mutating call and without retrying. *)
Theorem rollbackStack_unexpected_choice w options d prepared d1 st rendering :
  truthy_boolean (rs_force options)
    && (0 <? length (nullish (rs_orphanLogicalIds options) []))%nat = false →
  rollbackPrepare w options d = (Returns prepared, d1) →
  w_lookup w (history d1) (stackName (rs_stack options)) = Returns st →
  rollbackChoice (stackStatus st) = UNEXPECTED rendering →
  rollbackStack w options d
  = (Throws ("Unexpected rollback choice: " +:+ rendering),
     record (EvLookup (stackSdk prepared) (stackName (rs_stack options))) d1)
  ∧ count is_mutating (history d1) = count is_mutating (history d).
Proof.
  intros Hcombine Hprepare Hlookup Hchoice.
  pose proof (rollbackPrepare_not_mutating w options d) as Hprep.
  rewrite Hprepare in Hprep. cbn [snd] in Hprep. split; [| exact Hprep].
  unfold rollbackStack. rewrite Hcombine.
  rewrite (bind_returns _ _ _ _ _ Hprepare).
  cbn [rollbackLoop]. apply bind_throws.
  unfold rollbackIteration. rewrite bind_run. unfold call at 1.
  rewrite Hlookup. apply bind_throws.
  unfold rollbackSwitch. by rewrite Hchoice.
Qed.

(** ** Building, publishing and checking assets *)

Lemma prepareSdkFor_no_publisher_events w stack roleArn mode d :
  count is_publisherEvent
    (history (snd (prepareSdkFor w stack roleArn mode d)))
  = count is_publisherEvent (history d).
Proof.
  apply evolves_count. apply stable_prepareSdkFor; by intros [].
Qed.

Lemma validateBootstrapStackVersion_no_publisher_events
    w name requires param er d :
  count is_publisherEvent
    (history (snd (validateBootstrapStackVersion w name requires param er d)))
  = count is_publisherEvent (history d).
Proof.
  apply evolves_count.
  apply stable_validateBootstrapStackVersion; by intros [].
Qed.

(** X12: [buildSingleAsset] checks the bootstrap version that the asset
    artifact requires, at the artifact's parameter location, before it
    touches a publisher.  When that check throws, the build throws the same
    error prefixed with the name of the stack, and no publisher has been
    created or used. *)
Theorem buildSingleAsset_gate_precedes_publisher
    w artifact m asset options d prepared d1 message d2 :
  prepareSdkFor w (ao_stack options) (ao_roleArn options) ForWriting d
    = (Returns prepared, d1) →
  validateVersion w (envResources prepared)
    (asset_requiresBootstrapStackVersion artifact)
    (asset_bootstrapStackVersionSsmParameter artifact) d1
    = (Throws message, d2) →
  buildSingleAsset w artifact m asset options d
  = (Throws (stackName (ao_stack options) +:+ ": " +:+ message), d2)
  ∧ count is_publisherEvent (history d2)
    = count is_publisherEvent (history d).
Proof.
  intros Hprepare Hcheck.
  pose proof (validateBootstrapStackVersion_prefixes_errors w
                (stackName (ao_stack options))
                (asset_requiresBootstrapStackVersion artifact)
                (asset_bootstrapStackVersionSsmParameter artifact)
                (envResources prepared) d1) as Hgate.
  rewrite Hcheck in Hgate.
  pose proof (prepareSdkFor_no_publisher_events w (ao_stack options)
                (ao_roleArn options) ForWriting d) as Hcred.
  rewrite Hprepare in Hcred. cbn [snd] in Hcred.
  pose proof (validateBootstrapStackVersion_no_publisher_events w
                (stackName (ao_stack options))
                (asset_requiresBootstrapStackVersion artifact)
                (asset_bootstrapStackVersionSsmParameter artifact)
                (envResources prepared) d1) as Hgated.
  rewrite Hgate in Hgated. cbn [snd] in Hgated.
  split; [| congruence].
  unfold buildSingleAsset.
  rewrite (bind_returns _ _ _ _ _ Hprepare).
  by apply bind_throws.
Qed.

(** X13: publishing an entry and asking whether it is published never
    consult the bootstrap gate: whatever the stack or the environment,
    [publishSingleAsset] and [isSingleAssetPublished] make no
    [validateVersion] call and no version read, and no mutating call
    either. *)
Theorem publish_and_check_skip_gate w m asset options d :
  (count is_validateVersion
     (history (snd (publishSingleAsset w m asset options d)))
   = count is_validateVersion (history d)
   ∧ count is_versionRead
       (history (snd (publishSingleAsset w m asset options d)))
     = count is_versionRead (history d)
   ∧ count is_mutating
       (history (snd (publishSingleAsset w m asset options d)))
     = count is_mutating (history d))
  ∧ (count is_validateVersion
       (history (snd (isSingleAssetPublished w m asset options d)))
     = count is_validateVersion (history d)
     ∧ count is_versionRead
         (history (snd (isSingleAssetPublished w m asset options d)))
       = count is_versionRead (history d)
     ∧ count is_mutating
         (history (snd (isSingleAssetPublished w m asset options d)))
       = count is_mutating (history d)).
Proof.
  repeat split; apply evolves_count;
    first [ apply stable_publishSingleAsset
          | apply stable_isSingleAssetPublished ];
    by intros [].
Qed.

(** X14: after [buildEntry] or [publishEntry] has returned, the
    publisher's failure flag decides: when it is set the operation throws
    "Failed to build asset ..." or "Failed to publish asset ..." with the
    id of the entry, and when it is clear the operation returns.
    [isSingleAssetPublished] returns what the publisher answers and does
    not look at the flag. *)
Theorem asset_failure_flag_is_fatal w m asset options d prepared d1 :
  prepareSdkFor w (ao_stack options) (ao_roleArn options) ForWriting d
    = (Returns prepared, d1) →
  (∀ artifact d2 publisher d3,
     validateBootstrapStackVersion w (stackName (ao_stack options))
       (asset_requiresBootstrapStackVersion artifact)
       (asset_bootstrapStackVersionSsmParameter artifact)
       (envResources prepared) d1 = (Returns tt, d2) →
     cachedPublisher w m (resolvedEnvironment prepared)
       (ao_stackName options) d2 = (Returns publisher, d3) →
     w_publisherRun w (history d3) BuildEntry publisher asset = Returns tt →
     buildSingleAsset w artifact m asset options d
     = (if w_hasFailures w
             (EvPublisher BuildEntry m publisher asset :: history d3)
             publisher
        then Throws ("Failed to build asset " +:+ asset_id asset)
        else Returns tt,
        record (EvPublisher BuildEntry m publisher asset) d3))
  ∧ (∀ publisher d3,
       cachedPublisher w m (resolvedEnvironment prepared)
         (ao_stackName options) d1 = (Returns publisher, d3) →
       w_publisherRun w (history d3) PublishEntry publisher asset
         = Returns tt →
       publishSingleAsset w m asset options d
       = (if w_hasFailures w
               (EvPublisher PublishEntry m publisher asset :: history d3)
               publisher
          then Throws ("Failed to publish asset " +:+ asset_id asset)
          else Returns tt,
          record (EvPublisher PublishEntry m publisher asset) d3))
  ∧ (∀ publisher d3,
       cachedPublisher w m (resolvedEnvironment prepared)
         (ao_stackName options) d1 = (Returns publisher, d3) →
       isSingleAssetPublished w m asset options d
       = (w_isEntryPublished w (history d3) publisher asset,
          record (EvPublisher IsEntryPublished m publisher asset) d3)).
Proof.
  intros Hprepare. split; [| split].
  - intros artifact d2 publisher d3 Hgate Hpublisher Hrun.
    unfold buildSingleAsset.
    rewrite (bind_returns _ _ _ _ _ Hprepare).
    rewrite (bind_returns _ _ _ _ _ Hgate).
    rewrite (bind_returns _ _ _ _ _ Hpublisher).
    cbv [bind call hasFailures throw ret]. rewrite Hrun.
    cbn [history record]. by case_match.
  - intros publisher d3 Hpublisher Hrun.
    unfold publishSingleAsset.
    rewrite (bind_returns _ _ _ _ _ Hprepare).
    rewrite (bind_returns _ _ _ _ _ Hpublisher).
    cbv [bind call hasFailures throw ret]. rewrite Hrun.
    cbn [history record]. by case_match.
  - intros publisher d3 Hpublisher.
    unfold isSingleAssetPublished.
    rewrite (bind_returns _ _ _ _ _ Hprepare).
    by rewrite (bind_returns _ _ _ _ _ Hpublisher).
Qed.

(** ** stackExists *)

Lemma stable_stackExists w (P : Event → Prop) options :
  (∀ e, is_log e = true → P e) →
  (∀ e, is_credential e = true → P e) →
  (∀ e, is_versionRead e = true → P e) →
  (∀ e, is_lookup e = true → P e) →
  stable P (stackExists w options).
Proof.
  intros Hlog Hcred Hver Hlook.
  pose proof (stable_prepareSdkWithLookupOrDeployRole w P Hlog Hcred Hver).
  pose proof (stable_prepareSdkFor w P Hcred).
  unfold stackExists. stable_auto.
Qed.

(** X15: [stackExists] resolves credentials for reading, through the
    lookup role when [tryLookupRole] is set (falling back to the deploy
    role), looks the stack up under [deployName] when one is given and
    under the stack's own name otherwise, and returns the [exists] flag of
    what it found.  It makes no mutating call and does not consult the
    bootstrap gate. *)
Theorem stackExists_looks_up_read_only w options d :
  (∀ prepared d1 found,
     (if truthy_boolean (se_tryLookupRole options)
      then prepareSdkWithLookupOrDeployRole w (se_stack options)
      else prepareSdkFor w (se_stack options) None ForReading) d
       = (Returns prepared, d1) →
     w_lookup w (history d1)
       (nullish (se_deployName options) (stackName (se_stack options)))
       = Returns found →
     stackExists w options d
     = (Returns (exists_ found),
        record (EvLookup (stackSdk prepared)
                  (nullish (se_deployName options)
                     (stackName (se_stack options)))) d1))
  ∧ count is_mutating (history (snd (stackExists w options d)))
    = count is_mutating (history d)
  ∧ count is_validateVersion (history (snd (stackExists w options d)))
    = count is_validateVersion (history d).
Proof.
  split; [| split].
  - intros prepared d1 found Hprepare Hfound.
    unfold stackExists. rewrite (bind_returns _ _ _ _ _ Hprepare).
    cbv [bind call ret]. by rewrite Hfound.
  - apply evolves_count. apply stable_stackExists; by intros [].
  - apply evolves_count. apply stable_stackExists; by intros [].
Qed.

(** ** The properties above at concrete inputs *)

Lemma stack_without_environment_rejected_witness :
  deployStack (Sample.world true NONE 30 None)
    {| ds_stack := Scenario.homeless;
       ds_roleArn := None;
       ds_deploymentMethod := Some {| method := "direct";
                                      dm_changeSetName := None;
                                      dm_execute := None |};
       ds_changeSetName := None;
       ds_execute := None |}
    Sample.fresh_instance
  = (Throws "The stack Orders does not have an environment",
     Sample.fresh_instance)
  ∧ rollbackStack (Sample.world true NONE 30 None)
      {| rs_stack := Scenario.homeless;
         rs_roleArn := None;
         rs_quiet := None;
         rs_ci := None;
         rs_force := Some true;
         rs_orphanLogicalIds := None;
         rs_validateBootstrapStackVersion := None |}
      Sample.fresh_instance
    = (Throws "The stack Orders does not have an environment",
       Sample.fresh_instance).
Proof.
  split.
  - apply (proj1 (proj2 (stack_without_environment_rejected
                           (Sample.world true NONE 30 None) Scenario.homeless
                           eq_refl)));
      [reflexivity | right; split; reflexivity].
  - apply (proj2 (proj2 (stack_without_environment_rejected
                           (Sample.world true NONE 30 None) Scenario.homeless
                           eq_refl)));
      reflexivity.
Defined.

Lemma deployStack_rejects_two_methods_witness :
  deployStack (Sample.world true NONE 30 None)
    (Scenario.legacyDeploy (Some Scenario.changeSet)) Sample.fresh_instance
  = (Throws ("You cannot supply both 'deploymentMethod' and " +:+
             "'changeSetName/execute'. Supply one or the other."),
     Sample.fresh_instance).
Proof.
  apply (deployStack_rejects_two_methods _ _ _ Scenario.changeSet);
    [reflexivity | left; reflexivity].
Defined.

Lemma deployStack_delegates_after_gate_witness :
  ∃ args d2,
    deployStack (Sample.world true NONE 30 None)
      (Scenario.legacyDeploy None) Sample.fresh_instance
    = (Returns "deployed", record (EvDeployStack args) d2)
    ∧ da_roleArn args = Some "arn:aws:iam::111122223333:role/override"
    ∧ da_deploymentMethod args = Some Scenario.changeSet.
Proof.
  edestruct (deployStack_delegates_after_gate
               (Sample.world true NONE 30 None) (Scenario.legacyDeploy None)
               Sample.fresh_instance)
    as [args [Hrun [_ [_ [_ [Hrole [_ [Hmethod _]]]]]]]].
  - left. reflexivity.
  - vm_compute. reflexivity.
  - vm_compute. reflexivity.
  - eexists args, _. split; [exact Hrun |]. split.
    + rewrite Hrole. reflexivity.
    + apply Hmethod. left. reflexivity.
Defined.


Lemma prepareSdkWithLookupRoleFor_rethrows_witness :
  ∃ d3,
    prepareSdkWithLookupRoleFor Scenario.offline (Sample.stack None)
      Sample.fresh_instance
    = (Throws "Could not assume role", d3).
Proof.
  edestruct (prepareSdkWithLookupRoleFor_rethrows Scenario.offline
               (Sample.stack None) Sample.fresh_instance Sample.env)
    as [d3 [Hrun _]].
  - vm_compute. reflexivity.
  - vm_compute. reflexivity.
  - vm_compute. reflexivity.
  - exists d3. exact Hrun.
Defined.

Lemma prepareSdkWithLookupOrDeployRole_falls_back_witness :
  ∃ d',
    prepareSdkFor Scenario.offline (Sample.stack None) None ForReading
      (snd (prepareSdkWithLookupRoleFor Scenario.offline (Sample.stack None)
              Sample.fresh_instance))
    = (Throws "Could not assume role", d').
Proof.
  eexists.
  apply (proj1 (proj2 (prepareSdkWithLookupOrDeployRole_falls_back
                         Scenario.offline (Sample.stack None)
                         Sample.fresh_instance))).
  vm_compute. reflexivity.
Defined.

Lemma rollbackStack_calls_well_formed_witness :
  ∃ new,
    history (snd (rollbackStack
                    (Sample.world true CONTINUE_UPDATE_ROLLBACK 30
                       (Some "wait failed"))
                    (Sample.rollbackOptions None None (Some ["Queue"]) None)
                    Sample.fresh_instance))
    = new ++ history (snd (rollbackPrepare
                             (Sample.world true CONTINUE_UPDATE_ROLLBACK 30
                                (Some "wait failed"))
                             (Sample.rollbackOptions None None
                                (Some ["Queue"]) None)
                             Sample.fresh_instance))
    ∧ (∀ c input,
         EvContinueUpdateRollback c input ∈ new →
         cur_ResourcesToSkip input = ["Queue"]).
Proof.
  edestruct (rollbackStack_calls_well_formed
               (Sample.world true CONTINUE_UPDATE_ROLLBACK 30
                  (Some "wait failed"))
               (Sample.rollbackOptions None None (Some ["Queue"]) None)
               Sample.fresh_instance Scenario.prepared)
    as [new [Hnew [_ [Hcontinue _]]]].
  - reflexivity.
  - vm_compute. reflexivity.
  - exists new. split; [exact Hnew |].
    intros c input Hin.
    apply (Hcontinue c input Hin). discriminate.
Defined.

Lemma rollbackStack_without_force_single_pass_witness :
  (count is_lookup
     (history (snd (rollbackStack
                      (Sample.world true CONTINUE_UPDATE_ROLLBACK 30
                         (Some "wait failed"))
                      (Sample.rollbackOptions None (Some false) None None)
                      Sample.fresh_instance)))
   ≤ S (count is_lookup (history Sample.fresh_instance)))%nat.
Proof.
  apply (rollbackStack_without_force_single_pass
           (Sample.world true CONTINUE_UPDATE_ROLLBACK 30 (Some "wait failed"))
           (Sample.rollbackOptions None (Some false) None None)
           Sample.fresh_instance).
  discriminate.
Defined.

Lemma rollbackStack_outcomes_witness :
  (count is_mutating (history Sample.fresh_instance)
   < count is_mutating
       (history (snd (rollbackStack (Sample.world true START_ROLLBACK 30 None)
                        (Sample.rollbackOptions None None None None)
                        Sample.fresh_instance))))%nat.
Proof.
  destruct (proj2 (proj2 (rollbackStack_outcomes
                            (Sample.world true START_ROLLBACK 30 None)
                            (Sample.rollbackOptions None None None None)
                            Sample.fresh_instance))
              {| notInRollbackableState := None; success := Some true |}
              (snd (rollbackStack (Sample.world true START_ROLLBACK 30 None)
                      (Sample.rollbackOptions None None None None)
                      Sample.fresh_instance))
              ltac:(vm_compute; reflexivity))
    as [Hnot | [_ Hmore]]; [discriminate | exact Hmore].
Defined.


Lemma rollbackStack_unexpected_choice_witness :
  ∃ d',
    rollbackStack (Sample.world true (UNEXPECTED "4") 30 None)
      (Sample.rollbackOptions None None None None) Sample.fresh_instance
    = (Throws "Unexpected rollback choice: 4", d').
Proof.
  eexists.
  eapply (proj1 (rollbackStack_unexpected_choice
                   (Sample.world true (UNEXPECTED "4") 30 None)
                   (Sample.rollbackOptions None None None None)
                   Sample.fresh_instance Scenario.prepared _
                   (Sample.status (UNEXPECTED "4") false) "4"
                   eq_refl ltac:(vm_compute; reflexivity) eq_refl eq_refl)).
Defined.

Lemma buildSingleAsset_gate_precedes_publisher_witness :
  ∃ message d2,
    buildSingleAsset (Sample.world true NONE 3 None) Sample.artifact 7%nat
      Sample.asset Sample.assetOptions Sample.fresh_instance
    = (Throws ("Orders: " +:+ message), d2)
    ∧ count is_publisherEvent (history d2) = 0%nat.
Proof.
  eexists _, _.
  eapply (buildSingleAsset_gate_precedes_publisher
            (Sample.world true NONE 3 None) Sample.artifact 7%nat
            Sample.asset Sample.assetOptions Sample.fresh_instance
            Scenario.prepared).
  - vm_compute. reflexivity.
  - vm_compute. reflexivity.
Defined.

Lemma asset_failure_flag_is_fatal_witness :
  ∃ d4,
    publishSingleAsset Scenario.failing 7%nat Sample.asset
      Sample.assetOptions Sample.fresh_instance
    = (Throws "Failed to publish asset asset-1", d4).
Proof.
  eexists.
  eapply (proj1 (proj2 (asset_failure_flag_is_fatal Scenario.failing 7%nat
                          Sample.asset Sample.assetOptions
                          Sample.fresh_instance Scenario.prepared _
                          ltac:(vm_compute; reflexivity)))
            1%nat).
  - vm_compute. reflexivity.
  - reflexivity.
Defined.

Lemma stackExists_looks_up_read_only_witness :
  ∃ d',
    stackExists (Sample.world true NONE 30 None) Scenario.existsOptions
      Sample.fresh_instance
    = (Returns true, record (EvLookup 0%nat "Orders-blue") d').
Proof.
  eexists.
  eapply (proj1 (stackExists_looks_up_read_only
                   (Sample.world true NONE 30 None) Scenario.existsOptions
                   Sample.fresh_instance)
            {| stackSdk := 0%nat;
               resolvedEnvironment := Sample.env;
               cloudFormationRoleArn := None;
               envResources := environmentResources_for Sample.env 0%nat |}
            _ (Sample.status NONE false)).
  - vm_compute. reflexivity.
  - reflexivity.
Defined.

(** ** One client per stack and mode *)

(** What a successful [prepareSdkFor] has gone through. *)
Lemma prepareSdkFor_returns w stack roleArn mode d prepared d1 :
  prepareSdkFor w stack roleArn mode d = (Returns prepared, d1) →
  ∃ resolved assumed executed client,
    w_resolveEnvironment w (history d) (environment stack) = Returns resolved
    ∧ w_replaceEnvPlaceholders w
        (EvResolveEnvironment (environment stack) :: history d) resolved
        (stack_assumeRoleArn stack) = Returns assumed
    ∧ w_replaceEnvPlaceholders w
        (EvResolveEnvironment (environment stack) :: history d) resolved
        (match roleArn with
         | Some r => Some r
         | None => cloudFormationExecutionRoleArn stack
         end) = Returns executed
    ∧ sdkCache d1
        !! cacheKey w resolved mode
             (Some {| assumeRoleArn := assumed;
                      assumeRoleExternalId := stack_assumeRoleExternalId stack;
                      assumeRoleAdditionalOptions :=
                        stack_assumeRoleAdditionalOptions stack |})
      = Some client
    ∧ prepared = {| stackSdk := sdk client;
                    resolvedEnvironment := resolved;
                    cloudFormationRoleArn := executed;
                    envResources :=
                      environmentResources_for resolved (sdk client) |}.
Proof.
  unfold prepareSdkFor. destruct (environment stack) as [env |]; [| done].
  rewrite bind_run. unfold resolveEnvironment, call at 1.
  destruct (w_resolveEnvironment w (history d) (Some env))
    as [resolved | msg] eqn:Hresolved; [| done].
  rewrite bind_run. unfold replaceEnvPlaceholders2, call at 1.
  cbn [history record].
  destruct (w_replaceEnvPlaceholders w _ resolved (stack_assumeRoleArn stack))
    as [assumed | msg] eqn:Hassumed; [| done].
  destruct (w_replaceEnvPlaceholders w
              (EvResolveEnvironment (Some env) :: history d) resolved
              (match roleArn with
               | Some r => Some r
               | None => cloudFormationExecutionRoleArn stack
               end))
    as [executed | msg] eqn:Hexecuted; [| done].
  rewrite bind_run. cbn [fst snd].
  destruct (cachedSdkForEnvironment w resolved mode _ _)
    as [[client | msg] d'] eqn:Hclient; [| done].
  cbv [ret]. intros [= <- <-].
  destruct (cachedSdkForEnvironment_stores _ _ _ _ _ _ _ Hclient)
    as [Hstored _].
  exists resolved, assumed, executed, client.
  split; [done |]. split; [exact Hassumed |]. split; [exact Hexecuted |].
  split; [exact Hstored | done].
Qed.

(** X16: when the operations of an instance run one after the other, so
    that none starts while a credential-resolution call is suspended at
    its [await], and in a world where resolving the environment and
    replacing placeholders do not depend on what happened before: once
    [prepareSdkFor] has returned for a stack, every later [prepareSdkFor]
    for that stack and mode, after any operations and with any role
    override, returns the same client and environment and does not call
    the credential provider. *)
Theorem prepareSdkFor_reuses_client w stack roleArn mode d prepared d1 :
  (∀ h h' env, w_resolveEnvironment w h env = w_resolveEnvironment w h' env) →
  (∀ h h' env value,
     w_replaceEnvPlaceholders w h env value
     = w_replaceEnvPlaceholders w h' env value) →
  prepareSdkFor w stack roleArn mode d = (Returns prepared, d1) →
  ∀ invocations roleArn',
    ∃ outcome d3,
      prepareSdkFor w stack roleArn' mode (run w invocations d1)
      = (outcome, d3)
      ∧ count is_forEnvironment (history d3)
        = count is_forEnvironment (history (run w invocations d1))
      ∧ ∀ prepared',
          outcome = Returns prepared' →
          stackSdk prepared' = stackSdk prepared
          ∧ resolvedEnvironment prepared' = resolvedEnvironment prepared
          ∧ envResources prepared' = envResources prepared.
Proof.
  intros Hresolve Hreplace Hfirst invocations roleArn'.
  destruct (prepareSdkFor_returns _ _ _ _ _ _ _ Hfirst)
    as [resolved [assumed [executed [client
          [Hresolved [Hassumed [_ [Hstored ->]]]]]]]].
  destruct (run_evolves w (λ _, True) invocations d1 ltac:(done))
    as [_ [Hsdk _]].
  pose proof (lookup_weaken _ _ _ _ Hstored Hsdk) as Hlater.
  unfold prepareSdkFor.
  destruct (environment stack) as [env |] eqn:Henv.
  2:{ unfold prepareSdkFor in Hfirst. by rewrite Henv in Hfirst. }
  rewrite bind_run. unfold resolveEnvironment, call at 1.
  rewrite (Hresolve _ (history d) (Some env)), Hresolved.
  rewrite bind_run. unfold replaceEnvPlaceholders2, call at 1.
  cbn [history record].
  rewrite (Hreplace _ (EvResolveEnvironment (Some env) :: history d)
             resolved (stack_assumeRoleArn stack)), Hassumed.
  destruct (w_replaceEnvPlaceholders w
              (EvResolveEnvironment (Some env)
               :: history (run w invocations d1)) resolved
              (match roleArn' with
               | Some r => Some r
               | None => cloudFormationExecutionRoleArn stack
               end)) as [executed' | msg].
  - rewrite bind_run. cbn [fst snd].
    rewrite (cachedSdkForEnvironment_hit w resolved mode _ _ client)
      by exact Hlater.
    cbv [ret]. eexists _, _. split; [reflexivity |]. split.
    + cbn [history record]. by rewrite !count_cons.
    + by intros prepared' [= <-].
  - eexists _, _. split; [reflexivity |]. split.
    + cbn [history record]. by rewrite !count_cons.
    + intros prepared' [=].
Qed.

Lemma prepareSdkFor_reuses_client_witness :
  ∃ outcome d3,
    prepareSdkFor (Sample.world true NONE 30 None) (Sample.stack None)
      (Some "arn:aws:iam::111122223333:role/override") ForWriting
      (run (Sample.world true NONE 30 None) Sample.laterCalls
         (snd (prepareSdkFor (Sample.world true NONE 30 None)
                 (Sample.stack None) None ForWriting Sample.fresh_instance)))
    = (outcome, d3)
    ∧ count is_forEnvironment (history d3)
      = count is_forEnvironment
          (history
             (run (Sample.world true NONE 30 None) Sample.laterCalls
                (snd (prepareSdkFor (Sample.world true NONE 30 None)
                        (Sample.stack None) None ForWriting
                        Sample.fresh_instance)))).
Proof.
  edestruct (prepareSdkFor_reuses_client (Sample.world true NONE 30 None)
               (Sample.stack None) None ForWriting Sample.fresh_instance
               Scenario.prepared)
    as [outcome [d3 [Hrun [Hcount _]]]].
  - intros h h' env. reflexivity.
  - intros h h' env value. reflexivity.
  - vm_compute. reflexivity.
  - exists outcome, d3. split; [exact Hrun | exact Hcount].
Defined.

(** ** Credential calls that overlap *)

(** X17: the credential cache does not coalesce calls in flight.  When
    two calls of [cachedSdkForEnvironment] with the same environment, mode
    and options overlap, the second starting while the first is suspended
    at its [await], and the key is not in the cache, both call the
    provider; when both succeed they return two different clients, and the
    cache ends up with the client of the call that resumed last. *)
Theorem cachedSdkForEnvironment_overlapping_misses_twice
    w env mode options d outcome1 outcome2 d' :
  sdkCache d !! cacheKey w env mode options = None →
  cachedSdkForEnvironment_overlapping w env mode options env mode options d
    = (outcome1, outcome2, d') →
  count is_forEnvironment (history d')
  = S (S (count is_forEnvironment (history d)))
  ∧ ∀ client1 client2,
      outcome1 = Returns client1 →
      outcome2 = Returns client2 →
      sdk client1 ≠ sdk client2
      ∧ sdkCache d' !! cacheKey w env mode options = Some client2.
Proof.
  intros Hkey.
  unfold cachedSdkForEnvironment_overlapping, cachedSdkForEnvironment_start.
  rewrite Hkey.
  cbv [forEnvironment bind call fresh ret].
  destruct (w_forEnvironment w (history d) env mode options)
    as [assumed1 | message1];
    cbn [sdkCache record history nextObject]; rewrite Hkey;
    match goal with
    | |- context [w_forEnvironment w ?h env mode options] =>
        destruct (w_forEnvironment w h env mode options)
          as [assumed2 | message2]
    end;
    cbv [cachedSdkForEnvironment_resume sdkCache_set bind ret throw];
    cbn [sdkCache record history nextObject props publisherCache];
    intros [= <- <- <-]; cbn [history record];
    (split; [by rewrite !count_cons |]);
    intros client1 client2 Hfirst Hsecond; try discriminate.
  inversion Hfirst; inversion Hsecond; subst. cbn [sdk sdkCache].
  split; [lia |]. by rewrite lookup_insert_eq.
Qed.

Lemma cachedSdkForEnvironment_overlapping_misses_twice_witness :
  count is_forEnvironment
    (history
       (snd (cachedSdkForEnvironment_overlapping
               (Sample.world true NONE 30 None)
               Sample.env ForReading None Sample.env ForReading None
               Sample.fresh_instance)))
  = 2%nat.
Proof.
  apply (proj1 (cachedSdkForEnvironment_overlapping_misses_twice
                  (Sample.world true NONE 30 None) Sample.env ForReading None
                  Sample.fresh_instance _ _ _ eq_refl eq_refl)).
Defined.
